(** * Scam Audio Detector: a shallow embedding of [main.py]

    The program is a Streamlit script: it stores an uploaded or recorded
    clip in a temporary file, has [ffmpeg] decode it to WAV, transcribes
    the result with Whisper and asks Gemini whether the transcript looks
    like a scam call.  The embedding keeps the three functions of the
    script ([convert_to_wav], [transcribe_audio], [analyze_text]) and its
    two module-level branches, over an explicit world (file system and
    event log) and an environment that answers for the external
    collaborators. *)

From Stdlib Require Import ZArith Ascii String List Lia Permutation.
From stdpp Require Import gmap strings pretty.

Open Scope string_scope.
Open Scope list_scope.

(** ** Python string operations used by the script *)

Module PyStr.

(** A text is modelled by its UTF-8 encoding, one [ascii] for each byte
    (the texts that the speech model and the classifier hand over are
    decoded from bytes and hold no lone surrogate, so they have one).
    [lower] is [str.lower] on the ASCII letters: [A]..[Z] go to
    [a]..[z], every other byte stays.  (Of the characters outside ASCII,
    U+0130 and U+212A alone have an ASCII letter in their lower case, [i]
    and [k]: the search for [yes] and [no] finds what it finds after
    [str.lower].) *)
Definition is_upper (c : ascii) : bool :=
  (65 <=? nat_of_ascii c)%nat && (nat_of_ascii c <=? 90)%nat.

Definition lower_char (c : ascii) : ascii :=
  if is_upper c then ascii_of_nat (nat_of_ascii c + 32) else c.

Fixpoint lower (s : string) : string :=
  match s with
  | EmptyString => EmptyString
  | String c r => String (lower_char c) (lower r)
  end.

(** [contains needle hay] is Python's [needle in hay] on strings. *)
Fixpoint contains (needle hay : string) : bool :=
  String.prefix needle hay ||
  match hay with
  | EmptyString => false
  | String _ r => contains needle r
  end.

(** The code points that [str.split()] and [str.strip()] treat as
    whitespace, those for which [str.isspace] holds: U+0009..U+000D,
    U+001C..U+0020, U+0085, U+00A0, U+1680, U+2000..U+200A, U+2028,
    U+2029, U+202F, U+205F and U+3000. *)
Definition is_space (cp : N) : bool :=
  (((9 <=? cp) && (cp <=? 13)) || ((28 <=? cp) && (cp <=? 32))
   || (cp =? 133) || (cp =? 160) || (cp =? 5760)
   || ((8192 <=? cp) && (cp <=? 8202))
   || (cp =? 8232) || (cp =? 8233) || (cp =? 8239) || (cp =? 8287)
   || (cp =? 12288))%N.

(** A continuation byte of UTF-8, [10xxxxxx], and the six bits it holds. *)
Definition is_continuation (c : ascii) : bool :=
  ((128 <=? N_of_ascii c) && (N_of_ascii c <=? 191))%N.

Definition payload (c : ascii) : N := (N_of_ascii c - 128)%N.

(** The first character of a text: its code point and the number of
    bytes of its encoding.  A byte that begins no well-formed encoding
    counts as a character of its own, U+FFFD, which is no whitespace. *)
Definition head_char (s : string) : N * nat :=
  match s with
  | EmptyString => (0%N, 0)
  | String a r =>
      let x := N_of_ascii a in
      if (x <? 128)%N then (x, 1)
      else
        match r with
        | String b r1 =>
            if negb (is_continuation b) then (65533%N, 1)
            else if ((194 <=? x) && (x <=? 223))%N then
              (((x - 192) * 64 + payload b)%N, 2)
            else
              match r1 with
              | String c r2 =>
                  if negb (is_continuation c) then (65533%N, 1)
                  else if ((224 <=? x) && (x <=? 239))%N then
                    ((((x - 224) * 64 + payload b) * 64 + payload c)%N, 3)
                  else
                    match r2 with
                    | String d _ =>
                        if is_continuation d && ((240 <=? x) && (x <=? 244))%N then
                          ((((((x - 240) * 64 + payload b) * 64 + payload c) * 64)
                            + payload d)%N, 4)
                        else (65533%N, 1)
                    | EmptyString => (65533%N, 1)
                    end
              | EmptyString => (65533%N, 1)
              end
        | EmptyString => (65533%N, 1)
        end
  end.

(** The bytes of a text, each with the mark of the character it belongs
    to: is that character whitespace?  [pending] counts the bytes still
    to come of the character at hand, [flag] is its mark. *)
Fixpoint mark (pending : nat) (flag : bool) (s : string) : list (ascii * bool) :=
  match s with
  | EmptyString => []
  | String c r =>
      match pending with
      | S k => (c, flag) :: mark k flag r
      | O =>
          let space := is_space (fst (head_char (String c r))) in
          (c, space) :: mark (Nat.pred (snd (head_char (String c r)))) space r
      end
  end.

Definition marked (s : string) : list (ascii * bool) := mark 0 false s.

Fixpoint unmark (l : list (ascii * bool)) : string :=
  match l with
  | [] => EmptyString
  | x :: r => String (fst x) (unmark r)
  end.

(** Does [l] begin with a byte that belongs to a word? *)
Definition starts_word (l : list (ascii * bool)) : bool :=
  match l with
  | x :: _ => negb (snd x)
  | [] => false
  end.

(** The maximal runs of bytes that are not whitespace. *)
Fixpoint words (l : list (ascii * bool)) : list string :=
  match l with
  | [] => []
  | x :: r =>
      let rest := words r in
      if snd x then rest
      else if starts_word r then
        match rest with
        | w :: ws => String (fst x) w :: ws
        | [] => [String (fst x) EmptyString]
        end
      else String (fst x) EmptyString :: rest
  end.

(** [split s] is [s.split()]. *)
Definition split (s : string) : list string := words (marked s).

Fixpoint lstrip (l : list (ascii * bool)) : list (ascii * bool) :=
  match l with
  | [] => []
  | x :: r => if snd x then lstrip r else l
  end.

Fixpoint rstrip (l : list (ascii * bool)) : list (ascii * bool) :=
  match l with
  | [] => []
  | x :: r =>
      match rstrip r with
      | [] => if snd x then [] else [x]
      | r' => x :: r'
      end
  end.

(** [strip s] is [s.strip()]. *)
Definition strip (s : string) : string := unmark (rstrip (lstrip (marked s))).

(** Truth value of a string: only the empty string is false. *)
Definition truthy (s : string) : bool :=
  match s with EmptyString => false | _ => true end.

(** Is every character of [s] whitespace? *)
Definition all_space (s : string) : bool := forallb snd (marked s).

End PyStr.

(** ** The world the script runs in *)

(** What the script itself does, in order of occurrence: the calls it
    makes and the files that come about by them.  What a library does
    inside such a call (the audio decoding that Whisper does on its own,
    the cache of model weights) is not part of the log. *)
Inductive Event :=
| Spawned (argv : list string)            (* subprocess.run *)
| Created (path : string)                 (* a file came into existence *)
| Removed (path : string)                 (* os.remove *)
| LoadModel (name : string)               (* whisper.load_model *)
| Inference (path language : string)      (* model.transcribe *)
| GenerateContent (model prompt : string) (* model.generate_content *)
| StError (msg : string)                  (* st.error *)
| StTitle (body : string)                 (* st.title *)
| StWrite (args : list string)            (* st.write *)
| StAudio (path format : string)          (* st.audio *)
| StMarkdown (body : string).             (* st.markdown *)

#[global] Instance Event_eq_dec : EqDecision Event.
Proof. solve_decision. Defined.

(** The file system maps a path to the bytes stored there; it stands
    for the files that the script reads, writes and removes. *)
Record World := mkWorld {
  fs : gmap string (list Byte.byte);
  log : list Event
}.

(** The exceptions the script tells apart: the two that
    [convert_to_wav] names, and every other one, with its message. *)
Inductive Exn :=
| CalledProcessError (returncode : Z) (cmd : list string) (stderr : string)
| FileNotFoundError (filename : string)
| OtherException (msg : string).

(** A statement sequence ends by falling through with a value, by
    [st.stop()], or by an exception. *)
Inductive Res (A : Type) :=
| Val (a : A)
| Stopped
| Raised (e : Exn).
Arguments Val {A} a.
Arguments Stopped {A}.
Arguments Raised {A} e.

Definition M (A : Type) : Type := World -> Res A * World.

#[global] Instance M_ret : MRet M := fun A a w => (Val a, w).

#[global] Instance M_bind : MBind M := fun A B k m w =>
  match m w with
  | (Val a, w') => k a w'
  | (Stopped, w') => (Stopped, w')
  | (Raised e, w') => (Raised e, w')
  end.

Definition emit (e : Event) : M unit :=
  fun w => (Val tt, mkWorld (fs w) (log w ++ [e])).

Definition raise {A} (e : Exn) : M A := fun w => (Raised e, w).

Definition st_stop {A} : M A := fun w => (Stopped, w).

(** [try: body except ...]: the handler picks the clauses that match. *)
Definition try_except {A} (body : M A) (handler : Exn -> option (M A)) : M A :=
  fun w =>
    match body w with
    | (Raised e, w') =>
        match handler e with
        | Some h => h w'
        | None => (Raised e, w')
        end
    | r => r
    end.

(** The external collaborators.  A reply is a returned value or a raised
    exception with its message. *)
Inductive Reply (A : Type) :=
| Returns (a : A)
| Throws (msg : string).
Arguments Returns {A} a.
Arguments Throws {A} msg.

(** What [subprocess.run(..., capture_output=True, text=True)] meets:
    - the executable is not on the PATH ([FileNotFoundError]);
    - the process ran to an exit status and what it wrote to its standard
      streams is text in the locale's encoding: the captured standard
      error, and the bytes the process left at its output path, if any;
    - the process ran to an exit status but what it wrote cannot be
      decoded: the call raises [UnicodeDecodeError] with [msg], whatever
      the status;
    - the process could not be started for another reason, such as an
      executable without execute permission ([PermissionError]). *)
Inductive Spawn :=
| NoSuchExecutable
| Ran (returncode : Z) (stderr : string) (output : option (list Byte.byte))
| RanUndecodable (returncode : Z) (msg : string) (output : option (list Byte.byte))
| CannotExecute (msg : string).

Record Env := mkEnv {
  tmp_stem : string;                       (* name chosen by tempfile *)
  run : list string -> Spawn;              (* the operating system *)
  whisper_load : string -> Reply unit;     (* whisper.load_model *)
  whisper_transcribe : list Byte.byte -> string -> Reply string;
                                           (* result["text"] *)
  gemini : string -> string -> Reply string; (* response.text *)
  button : string -> bool;                 (* st.button *)
  secret_key : option string;              (* st.secrets["GEMINI_API_KEY"],
                                              [None] for a [KeyError] *)
  getenv_key : option string;              (* os.getenv("GEMINI_API_KEY") *)
  secrets_error : option string;           (* the exception of [st.secrets]
                                              when no secrets file is found *)
  missing_file_text : string -> string     (* [str(e)] of the [OSError] for a
                                              path where no file is *)
}.

(** The exit status of a process that ran. *)
Definition exit_status (s : Spawn) : option Z :=
  match s with
  | Ran returncode _ _ | RanUndecodable returncode _ _ => Some returncode
  | NoSuchExecutable | CannotExecute _ => None
  end.

(** Python's [repr] of a list of strings that hold no quote, backslash
    or control character, as in the message of [CalledProcessError].  The
    script never takes the [str] of that exception: [convert_to_wav]
    reads its [stderr] only. *)
Fixpoint repr_items (l : list string) : string :=
  match l with
  | [] => EmptyString
  | [x] => "'" +:+ x +:+ "'"
  | x :: r => "'" +:+ x +:+ "', " +:+ repr_items r
  end.

(** [str(e)]. *)
Definition exn_str (env : Env) (e : Exn) : string :=
  match e with
  | CalledProcessError rc cmd _ =>
      "Command '[" +:+ repr_items cmd +:+ "]' returned non-zero exit status "
        +:+ pretty rc +:+ "."
  | FileNotFoundError filename => missing_file_text env filename
  | OtherException msg => msg
  end.

Section Script.

Variable env : Env.

(** *** Library calls *)

Definition st_error (msg : string) : M unit := emit (StError msg).
Definition st_title (body : string) : M unit := emit (StTitle body).
Definition st_write (args : list string) : M unit := emit (StWrite args).
Definition st_markdown (body : string) : M unit := emit (StMarkdown body).
Definition st_button (label : string) : M bool := mret (button env label).

Definition no_such_file (path : string) : Exn := FileNotFoundError path.

Definition os_path_getsize (path : string) : M nat :=
  fun w =>
    match fs w !! path with
    | Some data => (Val (length data), w)
    | None => (Raised (no_such_file path), w)
    end.

Definition os_remove (path : string) : M unit :=
  fun w =>
    match fs w !! path with
    | Some _ => (Val tt, mkWorld (delete path (fs w)) (log w ++ [Removed path]))
    | None => (Raised (no_such_file path), w)
    end.

Definition read_file (path : string) : M (list Byte.byte) :=
  fun w =>
    match fs w !! path with
    | Some data => (Val data, w)
    | None => (Raised (no_such_file path), w)
    end.

(** [st.audio(path, format=...)] reads the file to play it, and raises
    an exception of Streamlit's own when it cannot. *)
Definition st_audio (path format : string) : M unit :=
  fun w =>
    match fs w !! path with
    | Some _ => emit (StAudio path format) w
    | None => (Raised (OtherException ("Error opening '" +:+ path +:+ "'")), w)
    end.

Definition write_file (path : string) (data : list Byte.byte) : M unit :=
  fun w => (Val tt, mkWorld (<[path := data]> (fs w)) (log w ++ [Created path])).

(** [with tempfile.NamedTemporaryFile(delete=False, suffix=...) as f:
    f.write(data); path = f.name]. *)
Definition named_temporary_file (suffix : string) (data : list Byte.byte) : M string :=
  let path := tmp_stem env +:+ suffix in
  write_file path data;; mret path.

(** [subprocess.run(argv, check=True, capture_output=True, text=True)].
    The process writes to the last argument of its command line. *)
Definition subprocess_run (argv : list string) : M unit :=
  emit (Spawned argv);;
  match run env argv with
  | NoSuchExecutable => raise (FileNotFoundError (List.hd EmptyString argv))
  | Ran returncode stderr output =>
      match output with
      | Some data => write_file (List.last argv EmptyString) data
      | None => mret tt
      end;;
      if (returncode =? 0)%Z then mret tt
      else raise (CalledProcessError returncode argv stderr)
  | RanUndecodable _ msg output =>
      match output with
      | Some data => write_file (List.last argv EmptyString) data
      | None => mret tt
      end;;
      raise (OtherException msg)
  | CannotExecute msg => raise (OtherException msg)
  end.

(** [whisper.load_model(name)]: the log keeps the call; how the library
    comes by the weights (its cache, a download) is outside the world. *)
Definition whisper_load_model (name : string) : M unit :=
  emit (LoadModel name);;
  match whisper_load env name with
  | Returns _ => mret tt
  | Throws msg => raise (OtherException msg)
  end.

(** [model.transcribe(path, language=...)["text"]]: the log keeps the
    call, and the answer depends on the bytes of the file; the decoding
    that the library does for itself is outside the world. *)
Definition model_transcribe (path language : string) : M string :=
  emit (Inference path language);;
  data ← read_file path;
  match whisper_transcribe env data language with
  | Returns text => mret text
  | Throws msg => raise (OtherException msg)
  end.

Definition generate_content (model prompt : string) : M string :=
  emit (GenerateContent model prompt);;
  match gemini env model prompt with
  | Returns text => mret text
  | Throws msg => raise (OtherException msg)
  end.

(** *** The functions of the script *)

Definition ffmpeg_argv (audio_path output_path : string) : list string :=
  ["ffmpeg"; "-i"; audio_path; "-acodec"; "pcm_s16le"; "-ar"; "16000"; output_path].

Definition convert_to_wav (audio_path output_path : string) : M (option string) :=
  try_except
    (subprocess_run (ffmpeg_argv audio_path output_path);;
     mret (Some output_path))
    (fun e =>
       match e with
       | CalledProcessError _ _ stderr =>
           Some (st_error ("Error converting audio to WAV: " +:+ stderr);;
                 mret None)
       | FileNotFoundError _ =>
           Some (st_error "FFmpeg is not installed or not found in PATH. Please install FFmpeg.";;
                 mret None)
       | OtherException _ => None
       end).

Definition transcribe_audio (audio_path : string) : M (option string * option string) :=
  try_except
    (file_size ← os_path_getsize audio_path;
     if (file_size <? 100)%nat then
       mret (None, Some "Audio file is empty or too small.")
     else
       whisper_load_model "medium";;
       text ← model_transcribe audio_path "en";
       if negb (PyStr.truthy (PyStr.strip text)) then
         mret (None, Some "Transcription is empty.")
       else mret (Some text, None))
    (fun e => Some (mret (None, Some ("Error transcribing audio: " +:+ exn_str env e)))).

Definition prompt_for (text : string) : string :=
  "Analyze this phone call transcription and determine if it resembles a spam call. "
  +:+ "Look for signs like unsolicited offers, urgent language, or requests for personal information. "
  +:+ "If the transcription is too short or lacks context, state that more information is needed. "
  +:+ "Answer yes or no, and provide a brief explanation (1-2 sentences): " +:+ text.

(** The part of [analyze_text] after the reply has arrived. *)
Definition verdict_of (response : string) : string * string * string :=
  let response_text := PyStr.lower response in
  let '(result, color) :=
    if PyStr.contains "yes" response_text then ("Scam detected!", "red")
    else if PyStr.contains "no" response_text then ("Not a scam.", "green")
    else ("Unable to determine.", "orange") in
  let explanation := response in
  (result, explanation, color).

Definition analyze_text (text : string)
  : M (option string * option string * option string) :=
  try_except
    (response ← generate_content "gemini-1.5-flash" (prompt_for text);
     let '(result, explanation, color) := verdict_of response in
     mret (Some result, Some explanation, Some color))
    (fun e =>
       Some (st_error ("Error analyzing text with Gemini API: " +:+ exn_str env e);;
             mret (None, None, None))).

(** *** The module-level code *)

(** Truth value and [str] of a value that is a string or [None]. *)
Definition opt_truthy (o : option string) : bool :=
  match o with
  | Some s => PyStr.truthy s
  | None => false
  end.

Definition str_of (o : option string) : string :=
  match o with
  | Some s => s
  | None => "None"
  end.

(** The body of [if st.button("Analyze"):], the same in both branches
    but for the wording of the too-short message. *)
Definition analyze_clicked (too_short : string)
    (temp_audio_path converted_path : string) : M unit :=
  '(text, error) ← transcribe_audio converted_path;
  (if opt_truthy error then
     st_error (str_of error);;
     os_remove temp_audio_path;;
     os_remove converted_path;;
     st_stop
   else mret tt);;
  st_write ["Transcription:"; str_of text];;
  match text with
  | None => raise (OtherException "'NoneType' object has no attribute 'split'")
  | Some text =>
      (if (length (PyStr.split text) <? 5)%nat then
         st_error too_short;;
         os_remove temp_audio_path;;
         os_remove converted_path;;
         st_stop
       else mret tt);;
      '(result, explanation, color) ← analyze_text text;
      if opt_truthy result then
        st_markdown ("<h3 style='color:" +:+ str_of color +:+ "'>"
                       +:+ str_of result +:+ "</h3>");;
        st_write ["Explanation:"; str_of explanation]
      else mret tt
  end.

(** From the conversion to the final clean-up: lines 96-131 of the
    upload branch and lines 151-186 of the record branch, which differ
    in the suffix of [wav_path] and in the too-short message only. *)
Definition convert_and_analyze (too_short : string)
    (temp_audio_path wav_path : string) : M unit :=
  converted ← convert_to_wav temp_audio_path wav_path;
  match converted with
  | None | Some EmptyString => os_remove temp_audio_path;; st_stop
  | Some converted_path =>
      st_audio converted_path "audio/wav";;
      clicked ← st_button "Analyze";
      (if (clicked : bool) then
         analyze_clicked too_short temp_audio_path converted_path
       else mret tt);;
      os_remove temp_audio_path;;
      os_remove converted_path
  end.

(** [if option == "Upload Audio":] with the uploaded buffer, if any. *)
Definition upload_audio (audio_file : option (list Byte.byte)) : M unit :=
  match audio_file with
  | None => mret tt
  | Some buffer =>
      temp_audio_path ← named_temporary_file ".tmp" buffer;
      convert_and_analyze
        "Transcription is too short for analysis. Please upload a longer audio clip."
        temp_audio_path (temp_audio_path +:+ ".wav")
  end.

(** [elif option == "Record Audio":] with the recorded bytes, if any. *)
Definition record_audio (audio : option (list Byte.byte)) : M unit :=
  st_write ["**Note**: Ensure your browser has microphone access. You may need to click 'Allow' when prompted."];;
  match audio with
  | None => mret tt
  | Some bytes =>
      temp_audio_path ← named_temporary_file ".wav" bytes;
      file_size ← os_path_getsize temp_audio_path;
      st_write ["Recorded audio file size: " +:+ pretty file_size +:+ " bytes"];;
      (if (file_size <? 100)%nat then
         st_error "Recorded audio file is empty. Please ensure your microphone is working and browser permissions are granted.";;
         os_remove temp_audio_path;;
         st_stop
       else mret tt);;
      convert_and_analyze
        "Transcription is too short for analysis. Please record a longer audio clip."
        temp_audio_path (temp_audio_path +:+ "_converted.wav")
  end.

(** The whole script: [choice] is what the select box returns and
    [input] what the widget of the chosen branch returns. *)
Definition main (choice : string) (input : option (list Byte.byte)) : M unit :=
  GEMINI_API_KEY ←
    match secrets_error env with
    | Some msg => raise (OtherException msg)
    | None =>
        mret match secret_key env with
             | Some k => Some k
             | None => getenv_key env
             end
    end;
  (if negb (opt_truthy GEMINI_API_KEY) then
     st_error "Please set the GEMINI_API_KEY in Streamlit secrets or environment variables.";;
     st_stop
   else mret tt);;
  st_title "Scam Audio Detector";;
  st_write ["Upload or record an audio file to check if it's a scam."];;
  (if String.eqb choice "Upload Audio" then upload_audio input
   else if String.eqb choice "Record Audio" then record_audio input
   else mret tt);;
  st_write ["**Note**: This is a proof-of-concept application. Predictions are based on AI analysis and may not be accurate in all cases. Always use your judgment when dealing with potential scams."].

(** One request: the script run from a file system [files], with an
    empty log. *)
Definition request (choice : string) (input : option (list Byte.byte))
    (files : gmap string (list Byte.byte)) : Res unit * World :=
  main choice input (mkWorld files []).

End Script.

(** ** Reading a log *)

Definition created_of (e : Event) : option string :=
  match e with Created p => Some p | _ => None end.

Definition removed_of (e : Event) : option string :=
  match e with Removed p => Some p | _ => None end.

Definition spawned_of (e : Event) : option (list string) :=
  match e with Spawned argv => Some argv | _ => None end.

Definition error_of (e : Event) : option string :=
  match e with StError m => Some m | _ => None end.

(** Calls of the speech model and of the classifier. *)
Definition model_call_of (e : Event) : option Event :=
  match e with LoadModel _ | Inference _ _ => Some e | _ => None end.

Definition prompt_of (e : Event) : option string :=
  match e with GenerateContent _ prompt => Some prompt | _ => None end.

Definition created (l : list Event) : list string := omap created_of l.
Definition removed (l : list Event) : list string := omap removed_of l.
Definition spawned (l : list Event) : list (list string) := omap spawned_of l.
Definition errors (l : list Event) : list string := omap error_of l.
Definition model_calls (l : list Event) : list Event := omap model_call_of l.
Definition prompts (l : list Event) : list string := omap prompt_of l.

(** The contract of the decoder: if it can be started, what it writes
    to its standard streams is text, and it exits with status 0 exactly
    when it has left an output file. *)
Definition decoder_contract (env : Env) : Prop :=
  forall argv,
    match run env argv with
    | NoSuchExecutable => True
    | Ran rc _ out => rc = 0%Z <-> is_Some out
    | RanUndecodable _ _ _ | CannotExecute _ => False
    end.

(** The usual text of the operating system for a path where no file is,
    for a path without quotes or control characters. *)
Definition errno2_text (path : string) : string :=
  "[Errno 2] No such file or directory: '" +:+ path +:+ "'".

(** A sample environment: the decoder works, the model hears
    [heard], the classifier answers [answer], and the button is pressed. *)
Definition sample_env (heard answer : string) : Env :=
  mkEnv "/tmp/tmpab12cd34"
        (fun _ => Ran 0 EmptyString (Some (repeat Byte.x00 4096)))
        (fun _ => Returns tt)
        (fun _ _ => Returns heard)
        (fun _ _ => Returns answer)
        (fun _ => true)
        (Some "key") None None errno2_text.

(** ** Vocabulary of the statements *)

(** Three whitespace characters outside ASCII, in UTF-8: the no-break
    space U+00A0, the next-line control U+0085 and the ideographic space
    U+3000. *)
Definition nbsp : string :=
  String (ascii_of_nat 194) (String (ascii_of_nat 160) EmptyString).

Definition next_line : string :=
  String (ascii_of_nat 194) (String (ascii_of_nat 133) EmptyString).

Definition ideographic_space : string :=
  String (ascii_of_nat 227)
    (String (ascii_of_nat 128) (String (ascii_of_nat 128) EmptyString)).

(** [needle] occurs in [hay]: the meaning of Python's [needle in hay]. *)
Definition occurs (needle hay : string) : Prop :=
  exists before after, hay = before +:+ needle +:+ after.

(** The messages of the script that the statements name. *)
Definition ffmpeg_missing_msg : string :=
  "FFmpeg is not installed or not found in PATH. Please install FFmpeg.".

(** [selects flag value argv]: [flag] stands in [argv] directly before
    [value], the way an option and its argument are passed. *)
Fixpoint selects (flag value : string) (argv : list string) : bool :=
  match argv with
  | [] => false
  | a :: r =>
      match r with
      | b :: _ => String.eqb a flag && String.eqb b value
      | [] => false
      end || selects flag value r
  end.

(** The option names on a command line: the arguments after the program
    name that begin with a dash. *)
Definition is_option (a : string) : bool := String.prefix "-" a.

Definition option_names (argv : list string) : list string :=
  List.filter is_option (List.tl argv).

(** [quiet w w']: from [w] to [w'] the script created and removed no
    file and made no call of [subprocess.run]. *)
Definition quiet (w w' : World) : Prop :=
  fs w' = fs w
  /\ created (log w') = created (log w)
  /\ removed (log w') = removed (log w)
  /\ spawned (log w') = spawned (log w).

Definition is_display (e : Event) : bool :=
  match e with
  | Spawned _ | Created _ | Removed _ => false
  | _ => true
  end.

(** What a run of [convert_and_analyze] leaves behind. *)
Definition cleaned (temp wav : string) (w : World) (res : Res unit * World) : Prop :=
  (fst res = Val tt \/ fst res = Stopped)
  /\ spawned (log (snd res)) = spawned (log w) ++ [ffmpeg_argv temp wav]
  /\ fs (snd res) !! temp = None
  /\ exists cr,
       (cr = [] \/ cr = [wav])
       /\ created (log (snd res)) = created (log w) ++ cr
       /\ removed (log (snd res)) = removed (log w) ++ temp :: cr
       /\ forall p, p ∈ cr -> fs (snd res) !! p = None.

(** A run is tidy when it ends normally or by [st.stop()], and the files
    it created are distinct, are each removed once, and are gone. *)
Definition tidy (w : World) (res : Res unit * World) : Prop :=
  (fst res = Val tt \/ fst res = Stopped)
  /\ exists cr,
       created (log (snd res)) = created (log w) ++ cr
       /\ removed (log (snd res)) = removed (log w) ++ cr
       /\ NoDup cr
       /\ forall p, p ∈ cr -> fs (snd res) !! p = None.

Definition empty_recording_msg : string :=
  "Recorded audio file is empty. Please ensure your microphone is working and browser permissions are granted.".

Definition upload_too_short_msg : string :=
  "Transcription is too short for analysis. Please upload a longer audio clip.".

Definition record_too_short_msg : string :=
  "Transcription is too short for analysis. Please record a longer audio clip.".

(** A branch stopped at the length check: [st.stop()] after the
    too-short message, no prompt sent to the classifier, and both
    temporary files created, removed and gone. *)
Definition stops_too_short (msg temp wav : string) (w : World)
    (res : Res unit * World) : Prop :=
  fst res = Stopped
  /\ errors (log (snd res)) = errors (log w) ++ [msg]
  /\ prompts (log (snd res)) = prompts (log w)
  /\ created (log (snd res)) = created (log w) ++ [temp; wav]
  /\ removed (log (snd res)) = removed (log w) ++ [temp; wav]
  /\ fs (snd res) !! temp = None
  /\ fs (snd res) !! wav = None.

(** The calls of the classifier, each with its model name and prompt. *)
Definition classifier_call_of (e : Event) : option (string * string) :=
  match e with GenerateContent model prompt => Some (model, prompt) | _ => None end.

Definition classifier_calls (l : list Event) : list (string * string) :=
  omap classifier_call_of l.

(** The fixed part of the prompt, before the transcript. *)
Definition prompt_template : string := prompt_for EmptyString.

Definition classifier_error_msg (msg : string) : string :=
  "Error analyzing text with Gemini API: " +:+ msg.

Definition transcription_error_msg (msg : string) : string :=
  "Error transcribing audio: " +:+ msg.

Definition is_model_event (e : Event) : bool :=
  match e with LoadModel _ | Inference _ _ => true | _ => false end.

Definition missing_key_msg : string :=
  "Please set the GEMINI_API_KEY in Streamlit secrets or environment variables.".

(** The two temporary paths of a request, by the chosen input method. *)
Definition temp_suffix (choice : string) : string :=
  if String.eqb choice "Upload Audio" then ".tmp" else ".wav".

Definition wav_suffix (choice : string) : string :=
  if String.eqb choice "Upload Audio" then ".wav" else "_converted.wav".

Definition temp_path (env : Env) (choice : string) : string :=
  tmp_stem env +:+ temp_suffix choice.

Definition wav_path (env : Env) (choice : string) : string :=
  temp_path env choice +:+ wav_suffix choice.

(** [extends ok own w w']: the log of [w'] is the log of [w] followed by
    events that satisfy [ok], and the files outside [own] are as in [w]. *)
Definition extends (ok : Event -> Prop) (own : string -> Prop) (w w' : World) : Prop :=
  (exists l, log w' = log w ++ l /\ Forall ok l)
  /\ (forall p, ~ own p -> fs w' !! p = fs w !! p).

(** [within ok own m]: whatever the world, [m] extends it that way. *)
Definition within (ok : Event -> Prop) (own : string -> Prop) {A} (m : M A) : Prop :=
  forall w, extends ok own w (snd (m w)).

(** What the script puts on the page. *)
Definition is_shown (e : Event) : bool :=
  match e with
  | StError _ | StTitle _ | StWrite _ | StAudio _ _ | StMarkdown _ => true
  | _ => false
  end.

(** File events on the two temporary paths only. *)
Definition file_event_within (temp wav : string) (e : Event) : Prop :=
  match e with
  | Created p | Removed p => p = temp \/ p = wav
  | _ => True
  end.

(** No call of [subprocess.run] but for the decoder on the two
    temporary paths. *)
Definition process_is_decoder (temp wav : string) (e : Event) : Prop :=
  match e with
  | Spawned argv => argv = ffmpeg_argv temp wav
  | _ => True
  end.

(** The speech model is called after the button only, as [medium], on
    the converted file, in English. *)
Definition model_call_allowed (env : Env) (wav : string) (e : Event) : Prop :=
  match e with
  | LoadModel name => button env "Analyze" = true /\ name = "medium"
  | Inference path language =>
      button env "Analyze" = true /\ path = wav /\ language = "en"
  | _ => True
  end.

(** The classifier is called after the button only, as
    [gemini-1.5-flash], with the prompt of a transcript that is not
    blank and has 5 words or more. *)
Definition prompt_allowed (env : Env) (e : Event) : Prop :=
  match e with
  | GenerateContent model prompt =>
      button env "Analyze" = true /\ model = "gemini-1.5-flash"
      /\ exists t, prompt = prompt_for t /\ PyStr.all_space t = false
                   /\ 5 <= length (PyStr.split t)
  | _ => True
  end.

(** [adds_at_most f P w w']: from [w] to [w'] the log gained no event
    that [f] reads, or one, whose reading satisfies [P]. *)
Definition adds_at_most {B} (f : Event -> option B) (P : B -> Prop)
    (w w' : World) : Prop :=
  omap f (log w') = omap f (log w)
  \/ exists x, P x /\ omap f (log w') = omap f (log w) ++ [x].

(** What [ok] and [own] have to allow for the analysis of a converted
    clip: the page, the removal of the two files, the model after the
    button, and after the button the prompt of a transcript that passed
    the length check. *)
Definition allows_analysis (env : Env) (ok : Event -> Prop) (own : string -> Prop)
    (temp wav : string) : Prop :=
  (forall e, is_shown e = true -> ok e)
  /\ own temp /\ own wav
  /\ ok (Removed temp) /\ ok (Removed wav)
  /\ (button env "Analyze" = true ->
      ok (LoadModel "medium") /\ ok (Inference wav "en"))
  /\ (forall t, button env "Analyze" = true ->
                PyStr.all_space t = false -> 5 <= length (PyStr.split t) ->
                ok (GenerateContent "gemini-1.5-flash" (prompt_for t))).

(** What they have to allow for a whole request on top of that: the two
    files coming about and the decoder. *)
Definition allows_request (env : Env) (ok : Event -> Prop) (own : string -> Prop)
    (temp wav : string) : Prop :=
  allows_analysis env ok own temp wav
  /\ ok (Created temp) /\ ok (Created wav)
  /\ ok (Spawned (ffmpeg_argv temp wav)).

(** Events that [f] does not read. *)
Definition silent_for {B} (f : Event -> option B) (e : Event) : Prop := f e = None.

Definition anywhere (p : string) : Prop := True.

(** [adds f P m]: whatever the world, [m] adds at most one event that
    [f] reads. *)
Definition adds {B} (f : Event -> option B) (P : B -> Prop) {A} (m : M A) : Prop :=
  forall w, adds_at_most f P w (snd (m w)).

(** ** Facts about the string operations *)

Example split_demo :
  PyStr.split "  hello   big world " = ["hello"; "big"; "world"].
Proof. reflexivity. Qed.

Example strip_demo : PyStr.strip "  a b  " = "a b".
Proof. reflexivity. Qed.

Example lower_demo : PyStr.lower "Yes, NO." = "yes, no.".
Proof. reflexivity. Qed.

Example contains_demo :
  PyStr.contains "yes" "oh yes" = true /\ PyStr.contains "yes" "ye s" = false.
Proof. split; reflexivity. Qed.

(** Tabs and line ends separate words like spaces do. *)
Example split_control_demo :
  PyStr.split (String (ascii_of_nat 9)
                 ("one" +:+ String (ascii_of_nat 10)
                    ("two" +:+ String (ascii_of_nat 13) (String (ascii_of_nat 10) "three"))))
  = ["one"; "two"; "three"].
Proof. reflexivity. Qed.

(** So do the whitespace characters outside ASCII: five words held
    apart by no-break spaces are five words, a no-break space at the end
    of a text is no word, and a text of such characters only is blank. *)
Example split_nbsp_demo :
  PyStr.split ("one" +:+ nbsp +:+ "two" +:+ nbsp +:+ "three" +:+ nbsp
                 +:+ "four" +:+ nbsp +:+ "five")
  = ["one"; "two"; "three"; "four"; "five"]
  /\ PyStr.split ("a b c d " +:+ nbsp) = ["a"; "b"; "c"; "d"]
  /\ PyStr.all_space (nbsp +:+ next_line +:+ ideographic_space) = true
  /\ PyStr.strip (ideographic_space +:+ "a" +:+ nbsp +:+ "b" +:+ next_line)
     = "a" +:+ nbsp +:+ "b".
Proof. repeat split; reflexivity. Qed.

(** A character whose encoding ends like that of a whitespace character
    is none: U+0120 is [C4 A0], and [A0] alone is no character. *)
Example split_letter_demo :
  PyStr.split ("a" +:+ String (ascii_of_nat 196) (String (ascii_of_nat 160) "b"))
  = ["a" +:+ String (ascii_of_nat 196) (String (ascii_of_nat 160) "b")].
Proof. reflexivity. Qed.


Module PyStrFacts.
Import PyStr.

#[local] Arguments String.append !s1 s2 : simpl nomatch.

Lemma append_assoc (a b c : string) : (a +:+ b) +:+ c = a +:+ (b +:+ c).
Proof. induction a as [|x a IH]; simpl; [reflexivity | now rewrite IH]. Qed.

Lemma append_length (a b : string) :
  String.length (a +:+ b) = String.length a + String.length b.
Proof. induction a as [|x a IH]; simpl; [reflexivity | now rewrite IH]. Qed.

Lemma append_neq_self (a b : string) : b <> EmptyString -> a +:+ b <> a.
Proof.
  intros Hb Heq. apply (f_equal String.length) in Heq.
  rewrite append_length in Heq.
  destruct b as [|x b]; [congruence | simpl in Heq; lia].
Qed.

Lemma append_nonempty (a b : string) : b <> EmptyString -> a +:+ b <> EmptyString.
Proof. destruct a; simpl; [tauto | discriminate]. Qed.

Lemma truthy_app_l (a b : string) : truthy a = true -> truthy (a +:+ b) = true.
Proof. destruct a; [discriminate | reflexivity]. Qed.

Lemma prefix_spec (needle hay : string) :
  String.prefix needle hay = true <-> exists after, hay = needle +:+ after.
Proof.
  revert hay. induction needle as [|x needle IH]; intros hay; simpl.
  - split; [intros _; now exists hay | now destruct hay].
  - destruct hay as [|y hay].
    + split; [discriminate | intros [after H]; discriminate].
    + simpl. destruct (Ascii.ascii_dec x y) as [->|Hne].
      * rewrite IH. split; intros [after H]; exists after.
        -- now rewrite H.
        -- now inversion H.
      * split; [discriminate | intros [after H]; inversion H; congruence].
Qed.

Lemma contains_nil (needle : string) :
  contains needle EmptyString = String.prefix needle EmptyString.
Proof. unfold contains. apply orb_false_r. Qed.

Lemma contains_cons (needle : string) (y : ascii) (hay : string) :
  contains needle (String y hay)
  = String.prefix needle (String y hay) || contains needle hay.
Proof. reflexivity. Qed.

Lemma contains_spec (needle hay : string) :
  contains needle hay = true <-> occurs needle hay.
Proof.
  unfold occurs. induction hay as [|y hay IH].
  - rewrite contains_nil, prefix_spec. split.
    + intros [after H]. exists EmptyString, after. exact H.
    + intros [before [after H]]. destruct before; simpl in H.
      * now exists after.
      * discriminate.
  - rewrite contains_cons, orb_true_iff, IH, prefix_spec. split.
    + intros [[after H] | [before [after H]]].
      * exists EmptyString, after. exact H.
      * exists (String y before), after. simpl. now rewrite H.
    + intros [before [after H]]. destruct before as [|z before]; simpl in H.
      * left. now exists after.
      * right. inversion H. now exists before, after.
Qed.

Lemma contains_false (needle hay : string) :
  contains needle hay = false <-> ~ occurs needle hay.
Proof.
  rewrite <- contains_spec. destruct (contains needle hay); split; intros H;
    congruence || (exfalso; now apply H) || discriminate.
Qed.

Lemma lower_app (a b : string) : lower (a +:+ b) = lower a +:+ lower b.
Proof. induction a as [|x a IH]; simpl; [reflexivity | now rewrite IH]. Qed.

(** A word in any casing is found after lower-casing. *)
Lemma occurs_any_case (word needle text : string) :
  lower word = needle -> occurs word text -> occurs needle (lower text).
Proof.
  intros Hw [before [after ->]].
  exists (lower before), (lower after). now rewrite !lower_app, Hw.
Qed.

Lemma unmark_mark (pending : nat) (flag : bool) (s : string) :
  unmark (mark pending flag s) = s.
Proof.
  revert pending flag. induction s as [|c s IH]; intros pending flag;
    [reflexivity |].
  destruct pending; cbn [mark unmark fst]; now rewrite IH.
Qed.

(** The marks are put on the bytes of the text, in their order. *)
Lemma unmark_marked (s : string) : unmark (marked s) = s.
Proof. apply unmark_mark. Qed.

Lemma unmark_nil (l : list (ascii * bool)) : unmark l = EmptyString <-> l = [].
Proof. destruct l; simpl; split; intros H; congruence. Qed.

Lemma rstrip_nil (l : list (ascii * bool)) :
  rstrip l = [] <-> forallb snd l = true.
Proof.
  induction l as [|x l IH]; simpl; [tauto |].
  destruct (rstrip l) eqn:E.
  - destruct (snd x); simpl.
    + rewrite <- IH. tauto.
    + split; discriminate.
  - split; [discriminate |]. rewrite andb_true_iff. intros [_ H].
    apply IH in H. discriminate.
Qed.

Lemma lstrip_all_space (l : list (ascii * bool)) :
  forallb snd (lstrip l) = forallb snd l.
Proof.
  induction l as [|x l IH]; simpl; [reflexivity |].
  destruct (snd x) eqn:E; simpl; [exact IH | now rewrite E].
Qed.

Lemma strip_empty (s : string) : strip s = EmptyString <-> all_space s = true.
Proof.
  unfold strip, all_space.
  now rewrite unmark_nil, rstrip_nil, lstrip_all_space.
Qed.

Lemma truthy_strip (s : string) : truthy (strip s) = negb (all_space s).
Proof.
  destruct (all_space s) eqn:E.
  - apply strip_empty in E. now rewrite E.
  - destruct (strip s) eqn:S; [| reflexivity].
    apply strip_empty in S. congruence.
Qed.

Lemma words_nil (l : list (ascii * bool)) : words l = [] <-> forallb snd l = true.
Proof.
  induction l as [|x l IH]; simpl; [tauto |].
  destruct (snd x); simpl; [exact IH |].
  split; [| discriminate].
  destruct (starts_word l); [destruct (words l) |]; discriminate.
Qed.

(** A text of whitespace only has no words, and only such a text. *)
Lemma split_nil (s : string) : split s = [] <-> all_space s = true.
Proof. apply words_nil. Qed.

Lemma starts_word_words (l : list (ascii * bool)) :
  starts_word l = true -> words l <> [].
Proof.
  intros Hs Hnil. apply words_nil in Hnil.
  destruct l as [|x l]; [discriminate |]. simpl in Hs, Hnil.
  destruct (snd x); discriminate.
Qed.

(** No word is empty. *)
Lemma split_words (s : string) :
  Forall (fun word => word <> EmptyString) (split s).
Proof.
  unfold split. induction (marked s) as [|x l IH]; simpl; [constructor |].
  destruct (snd x); [exact IH |].
  destruct (starts_word l).
  - destruct (words l) as [|word rest]; [repeat constructor; discriminate |].
    inversion IH; subst. constructor; [discriminate | assumption].
  - constructor; [discriminate | exact IH].
Qed.

(** Put together again, the words are the bytes of the text that belong
    to no whitespace character. *)
Lemma split_concat (s : string) :
  String.concat EmptyString (split s)
  = unmark (List.filter (fun x => negb (snd x)) (marked s)).
Proof.
  unfold split. induction (marked s) as [|x l IH]; simpl; [reflexivity |].
  destruct (snd x) eqn:Hx; simpl; [exact IH |].
  destruct (starts_word l) eqn:Hs.
  - pose proof (starts_word_words l Hs) as Hne.
    destruct (words l) as [|word rest]; [contradiction |].
    rewrite <- IH. destruct rest; reflexivity.
  - rewrite <- IH. destruct (words l); reflexivity.
Qed.

Lemma head_char_ascii (c : ascii) (s : string) :
  (N_of_ascii c < 128)%N -> head_char (String c s) = (N_of_ascii c, 1).
Proof. intros H. apply N.ltb_lt in H. unfold head_char. now rewrite H. Qed.

(** On a text of ASCII characters every byte is a character, marked as
    whitespace when it is one of U+0009..U+000D and U+001C..U+0020. *)
Lemma marked_ascii (s : string) (flag : bool) :
  Forall (fun c => (N_of_ascii c < 128)%N) (list_ascii_of_string s) ->
  mark 0 flag s
  = List.map (fun c => (c, is_space (N_of_ascii c))) (list_ascii_of_string s).
Proof.
  revert flag. induction s as [|c s IH]; intros flag Hs; [reflexivity |].
  inversion Hs as [|? ? Hc Hrest]; subst.
  cbn [mark list_ascii_of_string List.map].
  rewrite (head_char_ascii c s Hc). cbn [fst snd Nat.pred].
  now rewrite (IH _ Hrest).
Qed.

End PyStrFacts.

(** ** How the functions run *)

Section Runs.

Variable env : Env.

Lemma bind_run {A B} (m : M A) (k : A -> M B) (w : World) :
  (m ≫= k) w =
  match m w with
  | (Val a, w') => k a w'
  | (Stopped, w') => (Stopped, w')
  | (Raised e, w') => (Raised e, w')
  end.
Proof. reflexivity. Qed.

(** [convert_to_wav], case by case on what the operating system answers. *)
Lemma convert_to_wav_run (audio_path output_path : string) (w : World) :
  convert_to_wav env audio_path output_path w =
  let argv := ffmpeg_argv audio_path output_path in
  let l := log w ++ [Spawned argv] in
  match run env argv with
  | NoSuchExecutable =>
      (Val None, mkWorld (fs w) (l ++ [StError ffmpeg_missing_msg]))
  | Ran rc err out =>
      let w1 :=
        match out with
        | Some data =>
            mkWorld (<[output_path := data]> (fs w)) (l ++ [Created output_path])
        | None => mkWorld (fs w) l
        end in
      if (rc =? 0)%Z then (Val (Some output_path), w1)
      else (Val None,
            mkWorld (fs w1)
              (log w1 ++ [StError ("Error converting audio to WAV: " +:+ err)]))
  | RanUndecodable _ msg out =>
      (Raised (OtherException msg),
       match out with
       | Some data =>
           mkWorld (<[output_path := data]> (fs w)) (l ++ [Created output_path])
       | None => mkWorld (fs w) l
       end)
  | CannotExecute msg => (Raised (OtherException msg), mkWorld (fs w) l)
  end.
Proof.
  unfold convert_to_wav, try_except, subprocess_run.
  rewrite !bind_run. simpl.
  destruct (run env _) as [|rc err [data|]|rc msg [data|]|msg]; simpl;
    try reflexivity;
    rewrite !bind_run; simpl; destruct (rc =? 0)%Z; reflexivity.
Qed.

Lemma st_audio_run (path format : string) (w : World) (data : list Byte.byte) :
  fs w !! path = Some data ->
  st_audio path format w = (Val tt, mkWorld (fs w) (log w ++ [StAudio path format])).
Proof. intros H. unfold st_audio. now rewrite H. Qed.

(** [transcribe_audio], case by case on the file and the model. *)
Lemma transcribe_audio_run (audio_path : string) (w : World) :
  transcribe_audio env audio_path w =
  match fs w !! audio_path with
  | None =>
      (Val (None, Some ("Error transcribing audio: "
                          +:+ missing_file_text env audio_path)), w)
  | Some data =>
      if (length data <? 100)%nat then
        (Val (None, Some "Audio file is empty or too small."), w)
      else
        let l1 := log w ++ [LoadModel "medium"] in
        match whisper_load env "medium" with
        | Throws msg =>
            (Val (None, Some ("Error transcribing audio: " +:+ msg)),
             mkWorld (fs w) l1)
        | Returns _ =>
            let w2 := mkWorld (fs w) (l1 ++ [Inference audio_path "en"]) in
            match whisper_transcribe env data "en" with
            | Throws msg =>
                (Val (None, Some ("Error transcribing audio: " +:+ msg)), w2)
            | Returns text =>
                if PyStr.all_space text then
                  (Val (None, Some "Transcription is empty."), w2)
                else (Val (Some text, None), w2)
            end
        end
  end.
Proof.
  unfold transcribe_audio, try_except. rewrite bind_run.
  unfold os_path_getsize at 1.
  destruct (fs w !! audio_path) as [data|] eqn:Hfile; [| reflexivity].
  destruct (length data <? 100)%nat; [reflexivity |].
  unfold whisper_load_model, model_transcribe. rewrite !bind_run. simpl.
  destruct (whisper_load env "medium"); simpl; [| reflexivity].
  rewrite !bind_run. unfold read_file at 1. simpl.
  rewrite bind_run. simpl. rewrite Hfile.
  destruct (whisper_transcribe env data "en") as [text|]; simpl; [| reflexivity].
  rewrite PyStrFacts.truthy_strip, negb_involutive.
  destruct (PyStr.all_space text); reflexivity.
Qed.

(** [analyze_text], case by case on the classifier's reply. *)
Lemma analyze_text_run (text : string) (w : World) :
  analyze_text env text w =
  let w1 := mkWorld (fs w)
              (log w ++ [GenerateContent "gemini-1.5-flash" (prompt_for text)]) in
  match gemini env "gemini-1.5-flash" (prompt_for text) with
  | Returns response =>
      let '(result, explanation, color) := verdict_of response in
      (Val (Some result, Some explanation, Some color), w1)
  | Throws msg =>
      (Val (None, None, None),
       mkWorld (fs w1)
         (log w1 ++ [StError ("Error analyzing text with Gemini API: " +:+ msg)]))
  end.
Proof.
  unfold analyze_text, try_except, generate_content. rewrite !bind_run. simpl.
  destruct (gemini env _ _) as [response|msg]; simpl; [| reflexivity].
  now destruct (verdict_of response) as [[? ?] ?].
Qed.

End Runs.

(** ** Reading a command line *)

Lemma selects_spec (flag value : string) (argv : list string) :
  selects flag value argv = true <->
  exists before after, argv = before ++ flag :: value :: after.
Proof.
  induction argv as [|a r IH]; simpl.
  - split; [discriminate | intros [[|? ?] [? H]]; discriminate].
  - rewrite orb_true_iff, IH. split.
    + intros [H | [before [after ->]]].
      * destruct r as [|b r]; [discriminate |].
        apply andb_true_iff in H as [->%String.eqb_eq ->%String.eqb_eq].
        now exists [], r.
      * now exists (a :: before), after.
    + intros [[|x before] [after H]]; simpl in H; inversion H; subst.
      * left. now rewrite !String.eqb_refl.
      * right. now exists before, after.
Qed.

Lemma omap_snoc {A B} (f : A -> option B) (l : list A) (x : A) :
  omap f (l ++ [x]) = omap f l ++ match f x with Some y => [y] | None => [] end.
Proof. rewrite omap_app. simpl. now destruct (f x). Qed.

(** ** The decoder invocation *)

(** C1 (as amended): every call of [convert_to_wav] starts the decoder
    once, with the command line
    [ffmpeg -i <input> -acodec pcm_s16le -ar 16000 <output>]: the
    arguments fix the 16-bit signed little-endian PCM encoding and the
    16 kHz sample rate, whatever the input is.  The only options passed
    are [-i], [-acodec] and [-ar] (and a path, should it begin with a
    dash): no channel-count option ([-ac 1]) is among them, and an [-ac]
    can stand in the command line only as the input path itself. *)
Theorem convert_to_wav_fixed_arguments
    (env : Env) (audio_path output_path : string) (w : World) :
  let argv := ffmpeg_argv audio_path output_path in
  spawned (log (snd (convert_to_wav env audio_path output_path w)))
    = spawned (log w) ++ [argv]
  /\ argv = ["ffmpeg"; "-i"; audio_path]
              ++ ["-acodec"; "pcm_s16le"; "-ar"; "16000"] ++ [output_path]
  /\ selects "-acodec" "pcm_s16le" argv = true
  /\ selects "-ar" "16000" argv = true
  /\ selects "-ac" "1" argv = false
  /\ (forall v, selects "-ac" v argv = true -> audio_path = "-ac")
  /\ option_names argv
     = ["-i"] ++ (if is_option audio_path then [audio_path] else [])
         ++ ["-acodec"; "-ar"]
         ++ (if is_option output_path then [output_path] else []).
Proof.
  intros argv. split; [| split; [reflexivity |]].
  - rewrite convert_to_wav_run. fold argv. unfold spawned.
    destruct (run env argv) as [|rc err [data|]|rc msg [data|]|msg]; simpl;
      try (destruct (rc =? 0)%Z; simpl);
      rewrite ?omap_snoc; simpl; rewrite ?app_nil_r; reflexivity.
  - unfold argv, ffmpeg_argv. simpl.
    refine (conj _ (conj _ (conj _ (conj _ _)))).
    + now rewrite !orb_true_r.
    + now rewrite !orb_true_r.
    + now rewrite andb_false_r.
    + intros v H. rewrite !orb_false_r in H.
      apply andb_true_iff in H as [H _]. now apply String.eqb_eq.
    + unfold option_names. simpl.
      destruct (is_option audio_path), (is_option output_path); reflexivity.
Qed.

(** C1, where the claim as stated fails: on an uploaded clip the one
    command line that [convert_to_wav] runs has the options [-i],
    [-acodec] and [-ar] and no other; it selects the encoding and the
    sample rate but not a mono channel layout. *)
Lemma convert_to_wav_not_mono :
  let argv := ffmpeg_argv "/tmp/tmpab12cd34.tmp" "/tmp/tmpab12cd34.tmp.wav" in
  spawned (log (snd (convert_to_wav (sample_env EmptyString EmptyString)
                       "/tmp/tmpab12cd34.tmp" "/tmp/tmpab12cd34.tmp.wav"
                       (mkWorld ∅ [])))) = [argv]
  /\ option_names argv = ["-i"; "-acodec"; "-ar"]
  /\ ~ (selects "-acodec" "pcm_s16le" argv = true
        /\ selects "-ar" "16000" argv = true
        /\ selects "-ac" "1" argv = true).
Proof.
  split; [reflexivity |]. split; [reflexivity |].
  intros (_ & _ & H). discriminate H.
Qed.

(** [convert_to_wav], outcome by outcome.  It returns [None] exactly
    when [subprocess.run] raises one of the two exceptions it names: the
    decoder exited with a non-zero status and its output was text, or the
    executable was not found.  It returns the output path exactly when the
    decoder exited with status 0 and its output was text.  Every other
    exception of [subprocess.run] goes through [convert_to_wav] uncaught.
    The decoder is started once per call. *)
Lemma convert_to_wav_outcomes
    (env : Env) (audio_path output_path : string) (w : World) :
  let argv := ffmpeg_argv audio_path output_path in
  let r := fst (convert_to_wav env audio_path output_path w) in
  let w' := snd (convert_to_wav env audio_path output_path w) in
  (r = Val None <->
   run env argv = NoSuchExecutable
   \/ exists rc err out, run env argv = Ran rc err out /\ rc <> 0%Z)
  /\ (r = Val (Some output_path) <-> exists err out, run env argv = Ran 0 err out)
  /\ (forall msg,
         r = Raised (OtherException msg) <->
         (exists rc out, run env argv = RanUndecodable rc msg out)
         \/ run env argv = CannotExecute msg)
  /\ (forall rc err out, run env argv = Ran rc err out -> rc <> 0%Z ->
      errors (log w')
        = errors (log w) ++ ["Error converting audio to WAV: " +:+ err])
  /\ (run env argv = NoSuchExecutable ->
      errors (log w') = errors (log w) ++ [ffmpeg_missing_msg])
  /\ ((exists msg, r = Raised (OtherException msg)) ->
      errors (log w') = errors (log w))
  /\ spawned (log w') = spawned (log w) ++ [argv].
Proof.
  intros argv r w'. subst r w'. rewrite convert_to_wav_run. fold argv.
  unfold errors, spawned.
  assert (Hsp : forall out l, omap spawned_of
             (log match out with
                  | Some data =>
                      mkWorld (<[output_path := data]> (fs w))
                        (l ++ [Created output_path])
                  | None => mkWorld (fs w) l
                  end) = omap spawned_of l).
  { intros out l. destruct out; simpl; [| reflexivity].
    rewrite omap_snoc; simpl. apply app_nil_r. }
  assert (Her : forall out l, omap error_of
             (log match out with
                  | Some data =>
                      mkWorld (<[output_path := data]> (fs w))
                        (l ++ [Created output_path])
                  | None => mkWorld (fs w) l
                  end) = omap error_of l).
  { intros out l. destruct out; simpl; [| reflexivity].
    rewrite omap_snoc; simpl. apply app_nil_r. }
  destruct (run env argv) as [|rc err out|rc msg out|msg] eqn:Hrun; simpl.
  - rewrite !omap_snoc; simpl. rewrite !app_nil_r.
    refine (conj _ (conj _ (conj _ (conj _ (conj _ (conj _ _)))))).
    + split; [now left | reflexivity].
    + split; [discriminate | intros (? & ? & ?); discriminate].
    + intros m. split; [discriminate |].
      intros [(? & ? & ?) | ?]; discriminate.
    + discriminate.
    + reflexivity.
    + intros [m Hm]. discriminate.
    + reflexivity.
  - destruct (Z.eqb_spec rc 0) as [->|Hrc]; simpl;
      refine (conj _ (conj _ (conj _ (conj _ (conj _ (conj _ _)))))).
    + split; [discriminate |].
      intros [? | (rc' & err' & out' & Heq & Hne)]; [discriminate |].
      inversion Heq; subst. contradiction.
    + split; [intros _; now exists err, out | reflexivity].
    + intros m. split; [discriminate |].
      intros [(? & ? & ?) | ?]; discriminate.
    + intros rc' err' out' Heq Hne. inversion Heq; subst. contradiction.
    + discriminate.
    + intros [m Hm]. discriminate.
    + rewrite Hsp, omap_snoc. reflexivity.
    + split; [| reflexivity]. intros _. right. now exists rc, err, out.
    + split; [discriminate |]. intros (err' & out' & Heq).
      inversion Heq; subst. contradiction.
    + intros m. split; [discriminate |].
      intros [(? & ? & ?) | ?]; discriminate.
    + intros rc' err' out' Heq _. inversion Heq; subst.
      rewrite omap_snoc; simpl. rewrite Her, omap_snoc; simpl.
      now rewrite !app_nil_r.
    + discriminate.
    + intros [m Hm]. discriminate.
    + rewrite omap_snoc; simpl. rewrite !app_nil_r, Hsp, omap_snoc.
      reflexivity.
  - refine (conj _ (conj _ (conj _ (conj _ (conj _ (conj _ _)))))).
    + split; [discriminate |].
      intros [? | (? & ? & ? & ? & ?)]; discriminate.
    + split; [discriminate | intros (? & ? & ?); discriminate].
    + intros m. split.
      * intros [= <-]. left. now exists rc, out.
      * intros [(rc' & out' & Heq) | ?]; [| discriminate].
        now inversion Heq.
    + discriminate.
    + discriminate.
    + intros _. rewrite Her, omap_snoc. simpl. apply app_nil_r.
    + rewrite Hsp, omap_snoc. reflexivity.
  - rewrite !omap_snoc; simpl. rewrite !app_nil_r.
    refine (conj _ (conj _ (conj _ (conj _ (conj _ (conj _ _)))))).
    + split; [discriminate |].
      intros [? | (? & ? & ? & ? & ?)]; discriminate.
    + split; [discriminate | intros (? & ? & ?); discriminate].
    + intros m. split.
      * intros [= <-]. now right.
      * intros [(? & ? & ?) | Heq]; [discriminate |]. now inversion Heq.
    + discriminate.
    + discriminate.
    + reflexivity.
    + reflexivity.
Qed.

(** C7, where the code departs from the claim.  The decoder exits with
    status 1, and what it wrote to its standard error is no text in the
    locale's encoding (ffmpeg repeats there the tags of the clip as they
    are).  [subprocess.run] then raises [UnicodeDecodeError] before it
    looks at the status, and [convert_to_wav] catches [CalledProcessError]
    and [FileNotFoundError] only: the call raises, returns no failure
    value and shows no error. *)
Lemma convert_to_wav_raises_on_undecodable_stderr :
  let msg :=
    "'utf-8' codec can't decode byte 0xe9 in position 412: invalid continuation byte" in
  let env := mkEnv "/tmp/tmpab12cd34" (fun _ => RanUndecodable 1 msg None)
               (fun _ => Returns tt) (fun _ _ => Returns EmptyString)
               (fun _ _ => Returns EmptyString) (fun _ => true)
               (Some "key") None None errno2_text in
  let res := convert_to_wav env "/tmp/tmpab12cd34.tmp" "/tmp/tmpab12cd34.tmp.wav"
               (mkWorld ∅ []) in
  exit_status (run env (ffmpeg_argv "/tmp/tmpab12cd34.tmp" "/tmp/tmpab12cd34.tmp.wav"))
    = Some 1%Z
  /\ fst res = Raised (OtherException msg)
  /\ fst res <> Val None
  /\ errors (log (snd res)) = []
  /\ spawned (log (snd res))
     = [ffmpeg_argv "/tmp/tmpab12cd34.tmp" "/tmp/tmpab12cd34.tmp.wav"].
Proof.
  intros msg env res. repeat split. discriminate.
Qed.

(** ** The verdict *)

Import PyStrFacts.

(** C3: when the classifier answers, [analyze_text] decides on the
    lower-cased answer, in this order: an occurrence of [yes] gives
    [Scam detected!] in red, whether or not [no] occurs too; otherwise an
    occurrence of [no] gives [Not a scam.] in green; otherwise the result
    is [Unable to determine.] in orange. *)
Theorem analyze_text_verdict_priority
    (env : Env) (text response : string) (w : World) :
  gemini env "gemini-1.5-flash" (prompt_for text) = Returns response ->
  let lowered := PyStr.lower response in
  exists result color,
    fst (analyze_text env text w) = Val (Some result, Some response, Some color)
    /\ ((occurs "yes" lowered
         /\ result = "Scam detected!" /\ color = "red")
        \/ (~ occurs "yes" lowered /\ occurs "no" lowered
            /\ result = "Not a scam." /\ color = "green")
        \/ (~ occurs "yes" lowered /\ ~ occurs "no" lowered
            /\ result = "Unable to determine." /\ color = "orange")).
Proof.
  intros Hreply lowered. rewrite analyze_text_run, Hreply. unfold verdict_of.
  fold lowered.
  destruct (PyStr.contains "yes" lowered) eqn:Hyes.
  - exists "Scam detected!", "red". split; [reflexivity |].
    left. now apply contains_spec in Hyes.
  - apply contains_false in Hyes.
    destruct (PyStr.contains "no" lowered) eqn:Hno.
    + exists "Not a scam.", "green". split; [reflexivity |].
      right; left. now apply contains_spec in Hno.
    + apply contains_false in Hno.
      exists "Unable to determine.", "orange". split; [reflexivity |].
      right; right. tauto.
Qed.

Lemma analyze_text_verdict_priority_witness :
  let response := "No, but YES this could seem suspicious" in
  let env := sample_env "please provide your card number now" response in
  gemini env "gemini-1.5-flash" (prompt_for "please provide your card number now")
    = Returns response
  /\ fst (analyze_text env "please provide your card number now" (mkWorld ∅ []))
     = Val (Some "Scam detected!", Some response, Some "red").
Proof.
  intros response env. split; [reflexivity |].
  destruct (analyze_text_verdict_priority env
              "please provide your card number now" response (mkWorld ∅ [])
              eq_refl) as (result & color & Hrun & Hcase).
  rewrite Hrun.
  assert (Hyes : occurs "yes" (PyStr.lower response))
    by (apply contains_spec; reflexivity).
  destruct Hcase as [(_ & -> & ->) | [(Hn & _) | (Hn & _)]];
    [reflexivity | contradiction | contradiction].
Defined.

(** C8: the explanation [analyze_text] returns is the classifier's
    answer itself, in its own casing, whole. *)
Theorem analyze_text_explanation_untouched
    (env : Env) (text response : string) (w : World) :
  gemini env "gemini-1.5-flash" (prompt_for text) = Returns response ->
  exists result color,
    fst (analyze_text env text w) = Val (Some result, Some response, Some color).
Proof.
  intros Hreply. rewrite analyze_text_run, Hreply.
  destruct (verdict_of response) as [[result explanation] color] eqn:Hv.
  exists result, color. simpl.
  unfold verdict_of in Hv.
  destruct (if PyStr.contains "yes" (PyStr.lower response)
            then ("Scam detected!", "red")
            else if PyStr.contains "no" (PyStr.lower response)
                 then ("Not a scam.", "green")
                 else ("Unable to determine.", "orange")) as [r0 c0].
  now inversion Hv.
Qed.

Lemma analyze_text_explanation_untouched_witness :
  let transcript :=
    "Hello this is your bank calling about your account please provide your card number now" in
  let response :=
    "Yes, this resembles a scam due to urgency and request for sensitive data." in
  let env := sample_env transcript response in
  gemini env "gemini-1.5-flash" (prompt_for transcript) = Returns response
  /\ PyStr.lower response <> response
  /\ exists result color,
       fst (analyze_text env transcript (mkWorld ∅ []))
       = Val (Some result, Some response, Some color).
Proof.
  intros transcript response env. split; [reflexivity | split].
  - discriminate.
  - apply (analyze_text_explanation_untouched env transcript response
             (mkWorld ∅ [])). reflexivity.
Defined.

(** ** The gates of [transcribe_audio] *)

(** C5: on a file of fewer than 100 bytes [transcribe_audio] returns the
    empty-audio message at once: the world is as before, so the model
    was neither loaded nor run. *)
Theorem transcribe_audio_small_file
    (env : Env) (audio_path : string) (data : list Byte.byte) (w : World) :
  fs w !! audio_path = Some data ->
  length data < 100 ->
  transcribe_audio env audio_path w
    = (Val (None, Some "Audio file is empty or too small."), w)
  /\ model_calls (log (snd (transcribe_audio env audio_path w)))
     = model_calls (log w).
Proof.
  intros Hfile Hsmall. rewrite transcribe_audio_run, Hfile.
  apply Nat.ltb_lt in Hsmall. rewrite Hsmall. split; reflexivity.
Qed.

Lemma transcribe_audio_small_file_witness :
  let w := mkWorld {[ "/tmp/tmpab12cd34.tmp.wav" := repeat Byte.x00 44 ]} [] in
  transcribe_audio (sample_env "hello" "no") "/tmp/tmpab12cd34.tmp.wav" w
    = (Val (None, Some "Audio file is empty or too small."), w)
  /\ model_calls (log (snd (transcribe_audio (sample_env "hello" "no")
                              "/tmp/tmpab12cd34.tmp.wav" w))) = [].
Proof.
  intros w.
  apply (transcribe_audio_small_file (sample_env "hello" "no")
           "/tmp/tmpab12cd34.tmp.wav" (repeat Byte.x00 44) w).
  - reflexivity.
  - simpl. lia.
Defined.

(** C9: the threshold is 100 bytes.  A file of fewer bytes is rejected
    with the empty-audio message and without a model call; a file of 100
    bytes or more passes the gate: the model [medium] is loaded, and once
    it is loaded inference runs on the file, in English. *)
Theorem transcribe_audio_threshold
    (env : Env) (audio_path : string) (data : list Byte.byte) (w : World) :
  fs w !! audio_path = Some data ->
  let r := fst (transcribe_audio env audio_path w) in
  let w' := snd (transcribe_audio env audio_path w) in
  (length data < 100 ->
   r = Val (None, Some "Audio file is empty or too small.")
   /\ model_calls (log w') = model_calls (log w))
  /\ (100 <= length data ->
      exists rest,
        model_calls (log w') = model_calls (log w) ++ LoadModel "medium" :: rest
        /\ (forall u, whisper_load env "medium" = Returns u ->
            rest = [Inference audio_path "en"])).
Proof.
  intros Hfile r w'. subst r w'. rewrite transcribe_audio_run, Hfile. split.
  - intros Hsmall. apply Nat.ltb_lt in Hsmall. rewrite Hsmall. split; reflexivity.
  - intros Hbig. apply Nat.ltb_ge in Hbig. rewrite Hbig. unfold model_calls.
    destruct (whisper_load env "medium") as [u|msg]; simpl.
    + exists [Inference audio_path "en"]. split; [| reflexivity].
      destruct (whisper_transcribe env data "en") as [text|msg];
        [destruct (PyStr.all_space text) |]; simpl;
        rewrite !omap_snoc; simpl; now rewrite <- app_assoc.
    + exists []. split; [| discriminate].
      now rewrite omap_snoc.
Qed.

Lemma transcribe_audio_threshold_witness :
  let env := sample_env "hello there how are you today" "no" in
  let path := "/tmp/tmpab12cd34.tmp.wav" in
  let small := mkWorld {[ path := repeat Byte.x00 99 ]} [] in
  let exact := mkWorld {[ path := repeat Byte.x00 100 ]} [] in
  (fst (transcribe_audio env path small)
     = Val (None, Some "Audio file is empty or too small.")
   /\ model_calls (log (snd (transcribe_audio env path small))) = [])
  /\ model_calls (log (snd (transcribe_audio env path exact)))
     = [LoadModel "medium"; Inference path "en"].
Proof.
  intros env path small exact. split.
  - apply (transcribe_audio_threshold env path (repeat Byte.x00 99) small);
      [reflexivity | simpl; lia].
  - destruct (transcribe_audio_threshold env path (repeat Byte.x00 100) exact
                eq_refl) as [_ Hbig].
    destruct Hbig as (rest & Hlog & Hrest); [simpl; lia |].
    rewrite Hlog, (Hrest tt eq_refl). reflexivity.
Defined.

(** C6: a blank answer of the model (empty or whitespace only) is turned
    into the empty-transcription message, so a text that
    [transcribe_audio] returns comes without an error, has a character
    that is not whitespace, and has at least one word. *)
Theorem transcribe_audio_never_blank
    (env : Env) (audio_path : string) (w : World) :
  (forall data text,
      fs w !! audio_path = Some data ->
      100 <= length data ->
      (exists u, whisper_load env "medium" = Returns u) ->
      whisper_transcribe env data "en" = Returns text ->
      PyStr.all_space text = true ->
      fst (transcribe_audio env audio_path w)
        = Val (None, Some "Transcription is empty."))
  /\ (forall text error,
         fst (transcribe_audio env audio_path w) = Val (Some text, error) ->
         error = None
         /\ PyStr.all_space text = false
         /\ PyStr.strip text <> EmptyString
         /\ PyStr.split text <> []).
Proof.
  split.
  - intros data text Hfile Hbig [u Hload] Hheard Hblank.
    rewrite transcribe_audio_run, Hfile, Hload, Hheard, Hblank.
    apply Nat.ltb_ge in Hbig. now rewrite Hbig.
  - intros text error. rewrite transcribe_audio_run.
    destruct (fs w !! audio_path) as [data|]; [| discriminate].
    destruct (length data <? 100)%nat; [discriminate |].
    destruct (whisper_load env "medium"); [| discriminate].
    destruct (whisper_transcribe env data "en") as [heard|]; [| discriminate].
    destruct (PyStr.all_space heard) eqn:Hblank; [discriminate |].
    simpl. intros H. inversion H; subst. repeat split.
    + exact Hblank.
    + intros Hs. apply strip_empty in Hs. congruence.
    + intros Hs. apply split_nil in Hs. congruence.
Qed.

Lemma transcribe_audio_never_blank_witness :
  let path := "/tmp/tmpab12cd34.tmp.wav" in
  let w := mkWorld {[ path := repeat Byte.x00 4096 ]} [] in
  let blank := " " +:+ nbsp +:+ ideographic_space in
  fst (transcribe_audio (sample_env blank "no") path w)
    = Val (None, Some "Transcription is empty.")
  /\ (fst (transcribe_audio (sample_env " Hello there. " "no") path w)
        = Val (Some " Hello there. ", None)
      /\ PyStr.split " Hello there. " <> []).
Proof.
  intros path w blank. split.
  - apply (proj1 (transcribe_audio_never_blank (sample_env blank "no") path w)
             (repeat Byte.x00 4096) blank);
      [reflexivity | simpl; lia | now exists tt | reflexivity | reflexivity].
  - split; [reflexivity |].
    apply (proj2 (transcribe_audio_never_blank
                    (sample_env " Hello there. " "no") path w)
             " Hello there. " None).
    reflexivity.
Defined.

(** ** The module-level code, step by step *)

Section Branches.

Variable env : Env.

Lemma os_remove_run (path : string) (w : World) (data : list Byte.byte) :
  fs w !! path = Some data ->
  os_remove path w
    = (Val tt, mkWorld (delete path (fs w)) (log w ++ [Removed path])).
Proof. intros H. unfold os_remove. now rewrite H. Qed.

Lemma emit_run (e : Event) (w : World) :
  emit e w = (Val tt, mkWorld (fs w) (log w ++ [e])).
Proof. reflexivity. Qed.

Lemma quiet_refl (w : World) : quiet w w.
Proof. now repeat split. Qed.

Lemma quiet_trans (w1 w2 w3 : World) : quiet w1 w2 -> quiet w2 w3 -> quiet w1 w3.
Proof.
  intros (Hf & Hc & Hr & Hs) (Hf' & Hc' & Hr' & Hs').
  repeat split; congruence.
Qed.

Lemma quiet_snoc (w : World) (e : Event) :
  is_display e = true -> quiet w (mkWorld (fs w) (log w ++ [e])).
Proof.
  intros He. unfold quiet, created, removed, spawned. simpl.
  rewrite !omap_snoc.
  destruct e; try discriminate He; simpl; now rewrite !app_nil_r.
Qed.

Lemma transcribe_audio_quiet (audio_path : string) (w : World) :
  exists text error w',
    transcribe_audio env audio_path w = (Val (text, error), w')
    /\ quiet w w'
    /\ (opt_truthy error = true \/ (error = None /\ exists t, text = Some t)).
Proof.
  rewrite transcribe_audio_run.
  assert (Hmsg : forall m, opt_truthy (Some ("Error transcribing audio: " +:+ m)) = true)
    by (intros m; apply PyStrFacts.truthy_app_l; reflexivity).
  destruct (fs w !! audio_path) as [data|].
  2: { eexists _, _, _. split; [reflexivity |]. split; [apply quiet_refl | left; apply Hmsg]. }
  destruct (length data <? 100)%nat.
  { eexists _, _, _. split; [reflexivity |]. split; [apply quiet_refl | now left]. }
  pose proof (quiet_snoc w (LoadModel "medium") eq_refl) as Hq1.
  pose proof (quiet_trans _ _ _ Hq1
                (quiet_snoc _ (Inference audio_path "en") eq_refl)) as Hq2.
  simpl in Hq2.
  destruct (whisper_load env "medium").
  2: { eexists _, _, _. split; [reflexivity |]. split; [exact Hq1 | left; apply Hmsg]. }
  destruct (whisper_transcribe env data "en") as [text|].
  2: { eexists _, _, _. split; [reflexivity |]. split; [exact Hq2 | left; apply Hmsg]. }
  destruct (PyStr.all_space text).
  - eexists _, _, _. split; [reflexivity |]. split; [exact Hq2 | now left].
  - eexists _, _, _. split; [reflexivity |]. split; [exact Hq2 | right; eauto].
Qed.

Lemma analyze_text_quiet (text : string) (w : World) :
  exists r w', analyze_text env text w = (Val r, w') /\ quiet w w'.
Proof.
  rewrite analyze_text_run.
  pose proof (quiet_snoc w (GenerateContent "gemini-1.5-flash" (prompt_for text))
                eq_refl) as Hq1.
  destruct (gemini env _ _) as [response|msg].
  - destruct (verdict_of response) as [[? ?] ?]. eexists _, _. split; [reflexivity | exact Hq1].
  - eexists _, _. split; [reflexivity |].
    exact (quiet_trans _ _ _ Hq1 (quiet_snoc _ (StError _) eq_refl)).
Qed.

(** The failure exit of the analysis: the message, the two removals and
    [st.stop()]. *)
Lemma fail_and_clean_run {A} (msg temp conv : string) (w : World)
    (b d : list Byte.byte) :
  fs w !! temp = Some b -> fs w !! conv = Some d -> temp <> conv ->
  (st_error msg;; os_remove temp;; os_remove conv;; st_stop) w
  = (@Stopped A,
     mkWorld (delete conv (delete temp (fs w)))
       (log w ++ [StError msg; Removed temp; Removed conv])).
Proof.
  intros Htemp Hconv Hne. rewrite bind_run. simpl.
  rewrite bind_run, (os_remove_run temp _ b) by exact Htemp. simpl.
  rewrite bind_run, (os_remove_run conv _ d)
    by (simpl; rewrite lookup_delete_ne by exact Hne; exact Hconv).
  simpl. unfold st_stop. now rewrite <- !app_assoc.
Qed.

Lemma analyze_clicked_frame (too_short temp conv : string) (w : World)
    (b d : list Byte.byte) :
  fs w !! temp = Some b -> fs w !! conv = Some d -> temp <> conv ->
  let r := fst (analyze_clicked env too_short temp conv w) in
  let w' := snd (analyze_clicked env too_short temp conv w) in
  created (log w') = created (log w)
  /\ spawned (log w') = spawned (log w)
  /\ ((r = Val tt /\ fs w' = fs w /\ removed (log w') = removed (log w))
      \/ (r = Stopped /\ fs w' = delete conv (delete temp (fs w))
          /\ removed (log w') = removed (log w) ++ [temp; conv])).
Proof.
  intros Htemp Hconv Hne r w'. subst r w'.
  unfold analyze_clicked.
  destruct (transcribe_audio_quiet conv w)
    as (text & error & w1 & Hrun & (Hf1 & Hc1 & Hr1 & Hs1) & Hcase).
  rewrite bind_run, Hrun. cbn beta iota.
  destruct Hcase as [Herr | (-> & t & ->)].
  - rewrite Herr, bind_run.
    rewrite (fail_and_clean_run _ temp conv w1 b d) by congruence.
    simpl. unfold created, removed, spawned in *.
    rewrite !omap_app, Hf1, Hc1, Hr1, Hs1. simpl. rewrite !app_nil_r.
    split; [| split; [| right]]; auto.
  - simpl. rewrite bind_run. simpl. rewrite bind_run. simpl.
    remember (mkWorld (fs w1) (log w1 ++ [StWrite ["Transcription:"; t]]))
      as w2 eqn:Hw2.
    assert (Hq2 : quiet w w2).
    { apply (quiet_trans _ w1); [now repeat split |].
      subst w2. now apply quiet_snoc. }
    clear Hw2.
    destruct Hq2 as (Hf2 & Hc2 & Hr2 & Hs2).
    destruct (length (PyStr.split t) <? 5)%nat.
    + rewrite bind_run, (fail_and_clean_run _ temp conv w2 b d) by congruence.
      simpl. unfold created, removed, spawned in *.
      rewrite !omap_app, Hf2, Hc2, Hr2, Hs2. simpl. rewrite !app_nil_r.
      split; [| split; [| right]]; auto.
    + rewrite bind_run. simpl.
      destruct (analyze_text_quiet t w2) as (res & w3 & Hrun3 & Hq3).
      rewrite bind_run, Hrun3. destruct res as [[result explanation] color].
      assert (Hq : quiet w w3)
        by (apply (quiet_trans _ w2); [now repeat split | exact Hq3]).
      destruct (opt_truthy result).
      * rewrite !bind_run. simpl.
        assert (Hq' : quiet w3
                  (mkWorld (fs w3)
                     ((log w3 ++
                       [StMarkdown ("<h3 style='color:" +:+ str_of color +:+ "'>"
                                      +:+ str_of result +:+ "</h3>")])
                      ++ [StWrite ["Explanation:"; str_of explanation]]))).
        { apply (quiet_trans _
                   (mkWorld (fs w3)
                      (log w3 ++
                       [StMarkdown ("<h3 style='color:" +:+ str_of color +:+ "'>"
                                      +:+ str_of result +:+ "</h3>")]))).
          - now apply quiet_snoc.
          - now apply (quiet_snoc (mkWorld _ _)). }
        destruct (quiet_trans _ _ _ Hq Hq') as (Hf & Hc & Hr & Hs).
        split; [| split; [| left]]; auto.
      * simpl. destruct Hq as (Hf & Hc & Hr & Hs).
        split; [| split; [| left]]; auto.
Qed.

Lemma remove_both_run (temp conv : string) (w : World) (b d : list Byte.byte) :
  fs w !! temp = Some b -> fs w !! conv = Some d -> temp <> conv ->
  (os_remove temp;; os_remove conv) w
  = (Val tt,
     mkWorld (delete conv (delete temp (fs w)))
       (log w ++ [Removed temp; Removed conv])).
Proof.
  intros Htemp Hconv Hne.
  rewrite bind_run, (os_remove_run temp _ b) by exact Htemp.
  rewrite (os_remove_run conv _ d)
    by (simpl; rewrite lookup_delete_ne by exact Hne; exact Hconv).
  simpl. now rewrite <- !app_assoc.
Qed.

Lemma remove_and_stop_run (temp : string) (w : World) (b : list Byte.byte) :
  fs w !! temp = Some b ->
  (os_remove temp;; st_stop) w
  = (@Stopped unit, mkWorld (delete temp (fs w)) (log w ++ [Removed temp])).
Proof.
  intros Htemp. now rewrite bind_run, (os_remove_run temp _ b) by exact Htemp.
Qed.

Lemma convert_and_analyze_clean (too_short temp wav : string) (w : World)
    (b : list Byte.byte) :
  decoder_contract env ->
  fs w !! temp = Some b -> temp <> wav -> wav <> EmptyString ->
  cleaned temp wav w (convert_and_analyze env too_short temp wav w).
Proof.
  intros Hcontract Htemp Hne Hwav. unfold cleaned, convert_and_analyze.
  rewrite bind_run, convert_to_wav_run. cbv zeta.
  pose proof (Hcontract (ffmpeg_argv temp wav)) as Hc.
  destruct (run env (ffmpeg_argv temp wav)) as [|rc err out|rc msg out|msg] eqn:Hrun;
    [| | contradiction | contradiction].
  - (* no decoder on the PATH *)
    rewrite (remove_and_stop_run temp _ b) by exact Htemp. simpl.
    unfold created, removed, spawned. rewrite !omap_snoc. simpl.
    rewrite !app_nil_r.
    split; [now right |]. split; [reflexivity |].
    split; [apply lookup_delete_eq |].
    exists []. rewrite !app_nil_r. repeat split; auto.
    intros p Hp. inversion Hp.
  - destruct (Z.eqb_spec rc 0) as [Hrc|Hrc].
    + (* the decoder succeeded *)
      destruct (proj1 Hc Hrc) as [data ->].
      destruct wav as [|c wav'] eqn:Ewav; [contradiction |]. rewrite <- Ewav in *.
      clear Ewav c wav'.
      remember (mkWorld (<[wav := data]> (fs w))
                  ((log w ++ [Spawned (ffmpeg_argv temp wav)]) ++ [Created wav]))
        as w2 eqn:Hw2.
      assert (Htemp2 : fs w2 !! temp = Some b)
        by (subst w2; simpl; rewrite lookup_insert_ne by congruence; exact Htemp).
      assert (Hwav2 : fs w2 !! wav = Some data)
        by (subst w2; simpl; apply lookup_insert_eq).
      assert (Hlog2 : created (log w2) = created (log w) ++ [wav]
                      /\ removed (log w2) = removed (log w)
                      /\ spawned (log w2) = spawned (log w) ++ [ffmpeg_argv temp wav]).
      { subst w2. unfold created, removed, spawned. simpl.
        rewrite !omap_snoc. simpl. now rewrite !app_nil_r. }
      destruct Hlog2 as (Hc2 & Hr2 & Hs2).
      assert (Hfs : forall m : gmap string (list Byte.byte),
                 m = delete wav (delete temp (fs w2)) ->
                 m !! temp = None /\ forall p, p ∈ [wav] -> m !! p = None).
      { intros m ->. split.
        - rewrite lookup_delete_ne by congruence. apply lookup_delete_eq.
        - intros p ->%list_elem_of_singleton. apply lookup_delete_eq. }
      clear Hw2.
      rewrite bind_run, (st_audio_run wav _ w2 data Hwav2).
      rewrite bind_run. unfold st_button. simpl.
      remember (mkWorld (fs w2) (log w2 ++ [StAudio wav "audio/wav"])) as w3 eqn:Hw3.
      assert (Hq3 : quiet w2 w3) by (subst w3; now apply quiet_snoc).
      destruct Hq3 as (Hf3 & Hc3 & Hr3 & Hs3). clear Hw3.
      assert (Htemp3 : fs w3 !! temp = Some b) by congruence.
      assert (Hwav3 : fs w3 !! wav = Some data) by congruence.
      destruct (button env "Analyze").
      * (* the button is pressed *)
        rewrite bind_run.
        pose proof (analyze_clicked_frame too_short temp wav w3 b data
                      Htemp3 Hwav3 Hne) as Hframe.
        cbv zeta in Hframe.
        destruct (analyze_clicked env too_short temp wav w3) as [r w4].
        simpl in Hframe.
        destruct Hframe as (Hc4 & Hs4 & [(-> & Hf4 & Hr4) | (-> & Hf4 & Hr4)]).
        -- rewrite (remove_both_run temp wav w4 b data) by congruence.
           simpl. unfold created, removed, spawned in *.
           rewrite !omap_app. simpl. rewrite !app_nil_r.
           destruct (Hfs (delete wav (delete temp (fs w4)))) as [Ht Hp];
             [congruence |].
           split; [now left |]. split; [congruence |]. split; [exact Ht |].
           exists [wav]. split; [now right |].
           split; [congruence |]. split; [| exact Hp].
           rewrite Hr4, Hr3, Hr2. reflexivity.
        -- simpl.
           destruct (Hfs (fs w4)) as [Ht Hp]; [congruence |].
           split; [now right |]. split; [congruence |]. split; [exact Ht |].
           exists [wav]. split; [now right |].
           split; [congruence |]. split; [| exact Hp].
           rewrite Hr4, Hr3, Hr2. reflexivity.
      * (* the button is not pressed *)
        rewrite bind_run. simpl.
        rewrite (remove_both_run temp wav w3 b data) by congruence.
        simpl. unfold created, removed, spawned in *.
        rewrite !omap_app. simpl. rewrite !app_nil_r.
        destruct (Hfs (delete wav (delete temp (fs w3)))) as [Ht Hp];
          [congruence |].
        split; [now left |]. split; [congruence |]. split; [exact Ht |].
        exists [wav]. split; [now right |].
        split; [congruence |]. split; [| exact Hp].
        rewrite Hr3, Hr2. reflexivity.
    + (* the decoder failed *)
      assert (out = None) as ->.
      { destruct out as [data|]; [| reflexivity].
        exfalso. apply Hrc, Hc. now exists data. }
      simpl.
      rewrite (remove_and_stop_run temp _ b) by exact Htemp. simpl.
      unfold created, removed, spawned. rewrite !omap_snoc. simpl.
      rewrite !app_nil_r.
      split; [now right |]. split; [reflexivity |].
      split; [apply lookup_delete_eq |].
      exists []. rewrite !app_nil_r. repeat split; auto.
      intros p Hp. inversion Hp.
Qed.

Lemma tidy_quiet_before (w w1 : World) (res : Res unit * World) :
  quiet w w1 -> tidy w1 res -> tidy w res.
Proof.
  intros (_ & Hc & Hr & _) (Hres & cr & Hc' & Hr' & Hnd & Hgone).
  split; [exact Hres |]. exists cr. repeat split; try congruence; auto.
Qed.

Lemma tidy_quiet_after (w : World) (r : Res unit) (w1 w2 : World) :
  (r = Val tt \/ r = Stopped) -> quiet w1 w2 -> tidy w (Val tt, w1) -> tidy w (r, w2).
Proof.
  intros Hr' (Hf & Hc & Hr & _) (_ & cr & Hc' & Hr'' & Hnd & Hgone).
  split; [exact Hr' |]. exists cr. simpl in *.
  repeat split; try congruence; auto.
  intros p Hp. rewrite Hf. auto.
Qed.

Lemma tidy_nothing (w : World) (r : Res unit) :
  (r = Val tt \/ r = Stopped) -> tidy w (r, w).
Proof.
  intros Hr. split; [exact Hr |]. exists []. rewrite !app_nil_r.
  repeat split; auto using NoDup_nil_2. intros p Hp. inversion Hp.
Qed.

Lemma created_temp_file (suffix : string) (data : list Byte.byte) (w : World) :
  let temp := tmp_stem env +:+ suffix in
  named_temporary_file env suffix data w
  = (Val temp, mkWorld (<[temp := data]> (fs w)) (log w ++ [Created temp])).
Proof. reflexivity. Qed.

Lemma cleaned_tidy (temp wav : string) (data : list Byte.byte) (w : World)
    (res : Res unit * World) :
  temp <> wav ->
  cleaned temp wav
    (mkWorld (<[temp := data]> (fs w)) (log w ++ [Created temp])) res ->
  tidy w res.
Proof.
  intros Hne (Hres & _ & Hgone & cr & Hcr & Hc & Hr & Hp).
  split; [exact Hres |]. exists (temp :: cr).
  unfold created, removed in *. simpl in Hc, Hr.
  rewrite omap_snoc in Hc, Hr. simpl in Hc, Hr.
  rewrite <- app_assoc in Hc. rewrite app_nil_r in Hr.
  split; [exact Hc |]. split; [exact Hr |]. split.
  - destruct Hcr as [-> | ->].
    + apply NoDup_singleton.
    + apply NoDup_cons. split; [| apply NoDup_singleton].
      intros ->%list_elem_of_singleton. contradiction.
  - intros p [-> | Hin]%elem_of_cons; auto.
Qed.

Lemma upload_audio_tidy (audio_file : option (list Byte.byte)) (w : World) :
  decoder_contract env -> tidy w (upload_audio env audio_file w).
Proof.
  intros Hcontract. destruct audio_file as [buffer|]; simpl.
  - unfold upload_audio. rewrite bind_run, created_temp_file. cbv zeta.
    apply (cleaned_tidy (tmp_stem env +:+ ".tmp")
             ((tmp_stem env +:+ ".tmp") +:+ ".wav") buffer).
    + intros H. symmetry in H. revert H.
      now apply PyStrFacts.append_neq_self.
    + apply (convert_and_analyze_clean _ _ _ _ buffer Hcontract).
      * apply lookup_insert_eq.
      * intros H. symmetry in H. revert H.
        now apply PyStrFacts.append_neq_self.
      * now apply PyStrFacts.append_nonempty.
  - apply tidy_nothing. now left.
Qed.

Lemma record_audio_tidy (audio : option (list Byte.byte)) (w : World) :
  decoder_contract env -> tidy w (record_audio env audio w).
Proof.
  intros Hcontract. unfold record_audio. rewrite bind_run. simpl.
  match goal with |- tidy w (_ ?w1) => remember w1 as w0 eqn:Hw0 end.
  assert (Hq0 : quiet w w0) by (subst w0; now apply quiet_snoc).
  clear Hw0. apply (tidy_quiet_before w w0); [exact Hq0 |]. clear Hq0 w.
  destruct audio as [bytes|]; [| apply tidy_nothing; now left].
  rewrite bind_run, created_temp_file. cbv zeta.
  set (temp := tmp_stem env +:+ ".wav").
  assert (Hl : <[temp := bytes]> (fs w0) !! temp = Some bytes)
    by apply lookup_insert_eq.
  rewrite bind_run. unfold os_path_getsize at 1. cbn [fs].
  rewrite Hl. rewrite bind_run. simpl.
  destruct (length bytes <? 100)%nat.
  - (* the recording is too small *)
    rewrite bind_run. simpl. rewrite bind_run. simpl.
    rewrite (remove_and_stop_run temp _ bytes) by exact Hl. simpl.
    split; [now right |]. exists [temp]. simpl.
    unfold created, removed. rewrite !omap_snoc. simpl.
    rewrite !app_nil_r. repeat split.
    + apply NoDup_singleton.
    + intros p ->%list_elem_of_singleton. apply lookup_delete_eq.
  - rewrite bind_run. simpl.
    match goal with
    | |- tidy _ (convert_and_analyze _ _ _ _ ?w1) => remember w1 as w2 eqn:Hw2
    end.
    assert (Hq : quiet (mkWorld (<[temp := bytes]> (fs w0))
                          (log w0 ++ [Created temp])) w2)
      by (subst w2; now apply (quiet_snoc (mkWorld _ _))).
    clear Hw2.
    assert (Hne : temp <> temp +:+ "_converted.wav").
    { intros H. symmetry in H. revert H. now apply PyStrFacts.append_neq_self. }
    pose proof (convert_and_analyze_clean
                  "Transcription is too short for analysis. Please record a longer audio clip."
                  temp (temp +:+ "_converted.wav") w2 bytes Hcontract) as Hclean.
    destruct Hq as (Hf & Hc & Hr & Hs).
    apply (cleaned_tidy temp (temp +:+ "_converted.wav") bytes); [exact Hne |].
    destruct Hclean as (Hres & Hsp & Hgone & cr & Hcr & Hc' & Hr' & Hp).
    + rewrite Hf. apply lookup_insert_eq.
    + exact Hne.
    + now apply PyStrFacts.append_nonempty.
    + split; [exact Hres |]. split; [now rewrite Hsp, Hs |].
      split; [exact Hgone |]. exists cr.
      split; [exact Hcr |]. split; [now rewrite Hc', Hc |].
      split; [now rewrite Hr', Hr | exact Hp].
Qed.

Lemma main_tidy (choice : string) (input : option (list Byte.byte)) (w : World) :
  secrets_error env = None -> decoder_contract env ->
  tidy w (main env choice input w).
Proof.
  intros Hsecrets Hcontract. unfold main. rewrite Hsecrets, bind_run. simpl.
  rewrite bind_run.
  destruct (opt_truthy _); simpl.
  - revert w.
    assert (Hstep : forall (e : Event) (k : M unit) (w : World),
               is_display e = true ->
               (forall w', tidy w' (k w')) -> tidy w ((emit e;; k) w)).
    { intros e k w He Hk. rewrite bind_run. simpl.
      eapply tidy_quiet_before; [apply (quiet_snoc w e He) | apply Hk]. }
    intros w. apply Hstep; [reflexivity |]. clear w. intros w.
    apply Hstep; [reflexivity |]. clear w. intros w.
    assert (Hbranch :
              tidy w
                ((if String.eqb choice "Upload Audio" then upload_audio env input
                  else if String.eqb choice "Record Audio" then record_audio env input
                       else mret tt) w)).
    { destruct (String.eqb choice "Upload Audio");
        [now apply upload_audio_tidy |].
      destruct (String.eqb choice "Record Audio");
        [now apply record_audio_tidy |].
      apply tidy_nothing. now left. }
    rewrite bind_run.
    destruct ((if String.eqb choice "Upload Audio" then upload_audio env input
               else if String.eqb choice "Record Audio" then record_audio env input
                    else mret tt) w) as [r w3].
    destruct Hbranch as ([Hr | Hr] & Hfiles); simpl in Hr; subst r.
    + apply (tidy_quiet_after w _ w3); [now left | now apply quiet_snoc |].
      split; [now left | exact Hfiles].
    + split; [now right | exact Hfiles].
  - apply (tidy_quiet_after w _ w); [now right | now apply quiet_snoc |].
    apply tidy_nothing. now left.
Qed.

(** The run that ends at the length check. *)
Lemma convert_and_analyze_too_short (too_short temp wav err t : string)
    (b data : list Byte.byte) (w : World) :
  fs w !! temp = Some b -> temp <> wav -> wav <> EmptyString ->
  run env (ffmpeg_argv temp wav) = Ran 0 err (Some data) ->
  button env "Analyze" = true ->
  100 <= length data ->
  (exists u, whisper_load env "medium" = Returns u) ->
  whisper_transcribe env data "en" = Returns t ->
  PyStr.all_space t = false ->
  length (PyStr.split t) < 5 ->
  convert_and_analyze env too_short temp wav w
  = (Stopped,
     mkWorld (delete wav (delete temp (<[wav := data]> (fs w))))
       (log w ++ [Spawned (ffmpeg_argv temp wav); Created wav;
                  StAudio wav "audio/wav"; LoadModel "medium";
                  Inference wav "en"; StWrite ["Transcription:"; t];
                  StError too_short; Removed temp; Removed wav])).
Proof.
  intros Htemp Hne Hwav Hrun Hbutton Hbig [u Hload] Hheard Hblank Hshort.
  unfold convert_and_analyze.
  rewrite bind_run, convert_to_wav_run. cbv zeta. rewrite Hrun. simpl.
  destruct wav as [|c wav'] eqn:Ewav; [contradiction |]. rewrite <- Ewav in *.
  clear Ewav c wav'.
  rewrite bind_run, (st_audio_run wav "audio/wav" _ data)
    by apply lookup_insert_eq.
  rewrite bind_run. unfold st_button. simpl.
  rewrite Hbutton, bind_run. unfold analyze_clicked.
  rewrite bind_run, transcribe_audio_run. cbn [fs log].
  rewrite lookup_insert_eq.
  apply Nat.ltb_ge in Hbig. rewrite Hbig, Hload, Hheard, Hblank. cbv zeta.
  simpl. rewrite bind_run. simpl. rewrite bind_run. simpl.
  apply Nat.ltb_lt in Hshort. rewrite Hshort.
  rewrite bind_run.
  rewrite (fail_and_clean_run _ temp wav _ b data).
  - simpl. now rewrite <- !app_assoc.
  - simpl. rewrite lookup_insert_ne by congruence. exact Htemp.
  - simpl. apply lookup_insert_eq.
  - exact Hne.
Qed.

End Branches.

(** ** The temporary files *)

(** Where the clean-up holds.  When the secrets can be read and the
    decoder keeps its contract, a request, on whichever exit it takes (the
    end of the script or an [st.stop()]), leaves no temporary file of its
    own: the files it created are pairwise distinct, each is removed
    exactly once, and none is left in the file system. *)
Lemma request_cleans_up_under_contract
    (env : Env) (choice : string) (input : option (list Byte.byte))
    (files : gmap string (list Byte.byte)) :
  secrets_error env = None ->
  decoder_contract env ->
  let res := request env choice input files in
  (fst res = Val tt \/ fst res = Stopped)
  /\ NoDup (created (log (snd res)))
  /\ removed (log (snd res)) ≡ₚ created (log (snd res))
  /\ forall p, p ∈ created (log (snd res)) -> fs (snd res) !! p = None.
Proof.
  intros Hsecrets Hcontract res. subst res. unfold request.
  destruct (main_tidy env choice input (mkWorld files []) Hsecrets Hcontract)
    as (Hres & cr & Hc & Hr & Hnd & Hgone).
  simpl in Hc, Hr. rewrite Hc, Hr. auto.
Qed.

Lemma sample_env_contract (heard answer : string) :
  decoder_contract (sample_env heard answer).
Proof. intros argv. simpl. split; [eauto | reflexivity]. Qed.

(** C2, where the code departs from the claim.  An upload for which
    the decoder exits with status 1 after it has written a part of its
    output: the request shows the decoder's message, removes the uploaded
    copy and stops, and the converted file, created during the request,
    is never removed (lines 99-101 remove [temp_audio_path] only, where
    the later exits remove both files).  And an upload for which
    [subprocess.run] raises an exception that [convert_to_wav] does not
    catch: the request ends by that exception, with the uploaded copy
    still in place. *)
Lemma request_leaves_temporary_files :
  let clip := repeat Byte.x01 2048 in
  let part := repeat Byte.x00 44 in
  let temp := "/tmp/tmpab12cd34.tmp" in
  let wav := "/tmp/tmpab12cd34.tmp.wav" in
  let failing :=
    mkEnv "/tmp/tmpab12cd34"
          (fun _ => Ran 1 "av_interleaved_write_frame(): No space left on device"
                      (Some part))
          (fun _ => Returns tt) (fun _ _ => Returns EmptyString)
          (fun _ _ => Returns EmptyString) (fun _ => true)
          (Some "key") None None errno2_text in
  let crashing :=
    mkEnv "/tmp/tmpab12cd34"
          (fun _ => CannotExecute "[Errno 13] Permission denied: 'ffmpeg'")
          (fun _ => Returns tt) (fun _ _ => Returns EmptyString)
          (fun _ _ => Returns EmptyString) (fun _ => true)
          (Some "key") None None errno2_text in
  let res1 := request failing "Upload Audio" (Some clip) ∅ in
  let res2 := request crashing "Upload Audio" (Some clip) ∅ in
  (fst res1 = Stopped
   /\ created (log (snd res1)) = [temp; wav]
   /\ removed (log (snd res1)) = [temp]
   /\ fs (snd res1) !! wav = Some part)
  /\ (fst res2 = Raised (OtherException "[Errno 13] Permission denied: 'ffmpeg'")
      /\ created (log (snd res2)) = [temp]
      /\ removed (log (snd res2)) = []
      /\ fs (snd res2) !! temp = Some clip).
Proof.
  intros clip part temp wav failing crashing res1 res2.
  repeat split; vm_compute; reflexivity.
Qed.

(** ** The length check *)

Lemma gone_after_cleanup (temp wav : string) (b d : list Byte.byte)
    (files : gmap string (list Byte.byte)) :
  temp <> wav ->
  let left := delete wav (delete temp (<[wav := d]> (<[temp := b]> files))) in
  left !! temp = None /\ left !! wav = None.
Proof.
  intros Hne left. subst left. split.
  - rewrite lookup_delete_ne by congruence. apply lookup_delete_eq.
  - apply lookup_delete_eq.
Qed.

(** C4: a transcript of fewer than 5 whitespace-delimited words stops
    the request at the length check, in the upload branch and in the
    record branch alike: the too-short message is shown, the classifier
    is not called, and both temporary files are removed. *)
Theorem too_short_transcript_stops
    (env : Env) (buffer data : list Byte.byte) (err t : string) (w : World) :
  (forall argv, run env argv = Ran 0 err (Some data)) ->
  button env "Analyze" = true ->
  100 <= length data ->
  (exists u, whisper_load env "medium" = Returns u) ->
  whisper_transcribe env data "en" = Returns t ->
  PyStr.all_space t = false ->
  length (PyStr.split t) < 5 ->
  let temp_u := tmp_stem env +:+ ".tmp" in
  let temp_r := tmp_stem env +:+ ".wav" in
  stops_too_short upload_too_short_msg temp_u (temp_u +:+ ".wav") w
    (upload_audio env (Some buffer) w)
  /\ (100 <= length buffer ->
      stops_too_short record_too_short_msg temp_r (temp_r +:+ "_converted.wav") w
        (record_audio env (Some buffer) w)).
Proof.
  intros Hrun Hbutton Hbig Hload Hheard Hblank Hshort temp_u temp_r.
  assert (Hne : forall a b : string, b <> EmptyString -> a <> a +:+ b).
  { intros a b Hb H. symmetry in H. revert H. now apply append_neq_self. }
  split.
  - unfold upload_audio. rewrite bind_run, created_temp_file. cbv zeta.
    fold temp_u.
    rewrite (convert_and_analyze_too_short env _ temp_u (temp_u +:+ ".wav")
               err t buffer data
               (mkWorld (<[temp_u := buffer]> (fs w)) (log w ++ [Created temp_u]))
               (lookup_insert_eq _ _ _) (Hne temp_u ".wav" ltac:(discriminate))
               (append_nonempty temp_u ".wav" ltac:(discriminate))
               (Hrun (ffmpeg_argv temp_u (temp_u +:+ ".wav"))) Hbutton Hbig Hload Hheard Hblank Hshort).
    unfold stops_too_short, errors, prompts, created, removed. simpl.
    rewrite ?omap_app. simpl. rewrite ?omap_snoc. simpl.
    rewrite ?app_nil_r, <- ?app_assoc. simpl.
    destruct (gone_after_cleanup temp_u (temp_u +:+ ".wav") buffer data (fs w))
      as [Ht Hw]; [now apply Hne |].
    repeat split; auto.
  - intros Hsize. unfold record_audio. rewrite bind_run. simpl.
    rewrite bind_run, created_temp_file. cbv zeta. fold temp_r.
    rewrite bind_run. unfold os_path_getsize at 1. cbn [fs].
    rewrite lookup_insert_eq. rewrite bind_run. simpl.
    apply Nat.ltb_ge in Hsize. rewrite Hsize. rewrite bind_run. simpl.
    rewrite (convert_and_analyze_too_short env _ temp_r
               (temp_r +:+ "_converted.wav") err t buffer data
               (mkWorld (<[temp_r := buffer]> (fs w)) _)
               (lookup_insert_eq _ _ _)
               (Hne temp_r "_converted.wav" ltac:(discriminate))
               (append_nonempty temp_r "_converted.wav" ltac:(discriminate))
               (Hrun (ffmpeg_argv temp_r (temp_r +:+ "_converted.wav"))) Hbutton Hbig Hload Hheard Hblank Hshort).
    unfold stops_too_short, errors, prompts, created, removed. simpl.
    rewrite ?omap_app. simpl. rewrite ?omap_snoc. simpl.
    rewrite ?app_nil_r, <- ?app_assoc. simpl.
    destruct (gone_after_cleanup temp_r (temp_r +:+ "_converted.wav")
                buffer data (fs w)) as [Ht Hw]; [now apply Hne |].
    repeat split; auto.
Qed.

Lemma too_short_transcript_stops_witness :
  let heard := "Thanks a lot, bye. " +:+ nbsp in
  let env := sample_env heard "No." in
  let clip := repeat Byte.x01 2048 in
  let w := mkWorld ∅ [] in
  length (PyStr.split heard) < 5
  /\ stops_too_short upload_too_short_msg
       "/tmp/tmpab12cd34.tmp" "/tmp/tmpab12cd34.tmp.wav" w
       (upload_audio env (Some clip) w)
  /\ stops_too_short record_too_short_msg
       "/tmp/tmpab12cd34.wav" "/tmp/tmpab12cd34.wav_converted.wav" w
       (record_audio env (Some clip) w).
Proof.
  intros heard env clip w.
  assert (Hshort : length (PyStr.split heard) < 5) by (vm_compute; lia).
  split; [exact Hshort |].
  destruct (too_short_transcript_stops env clip (repeat Byte.x00 4096) EmptyString
              heard w) as [Hupload Hrecord].
  - intros argv. reflexivity.
  - reflexivity.
  - simpl. lia.
  - now exists tt.
  - reflexivity.
  - reflexivity.
  - exact Hshort.
  - split; [exact Hupload |]. apply Hrecord. simpl. lia.
Defined.

(** ** The size gate of the record branch *)

(** C10: in the record branch a recording of fewer than 100 bytes stops
    the request before any conversion: the empty-recording message is
    shown, the temporary file is removed, and no process is started.  So
    whenever the branch starts the decoder, the recording has at least
    100 bytes. *)
Theorem record_audio_size_gate
    (env : Env) (audio : option (list Byte.byte)) (w : World) :
  let res := record_audio env audio w in
  let temp := tmp_stem env +:+ ".wav" in
  (forall bytes,
      audio = Some bytes -> length bytes < 100 ->
      fst res = Stopped
      /\ errors (log (snd res)) = errors (log w) ++ [empty_recording_msg]
      /\ spawned (log (snd res)) = spawned (log w)
      /\ created (log (snd res)) = created (log w) ++ [temp]
      /\ removed (log (snd res)) = removed (log w) ++ [temp]
      /\ fs (snd res) !! temp = None)
  /\ (spawned (log (snd res)) <> spawned (log w) ->
      exists bytes, audio = Some bytes /\ 100 <= length bytes).
Proof.
  intros res temp.
  assert (Hsmall : forall bytes,
             audio = Some bytes -> length bytes < 100 ->
             fst res = Stopped
             /\ errors (log (snd res)) = errors (log w) ++ [empty_recording_msg]
             /\ spawned (log (snd res)) = spawned (log w)
             /\ created (log (snd res)) = created (log w) ++ [temp]
             /\ removed (log (snd res)) = removed (log w) ++ [temp]
             /\ fs (snd res) !! temp = None).
  { intros bytes -> Hlen. subst res.
    assert (Hrun :
              record_audio env (Some bytes) w
              = (Stopped,
                 mkWorld (delete temp (<[temp := bytes]> (fs w)))
                   (log w ++
                    [StWrite ["**Note**: Ensure your browser has microphone access. You may need to click 'Allow' when prompted."];
                     Created temp;
                     StWrite ["Recorded audio file size: "
                                +:+ pretty (length bytes) +:+ " bytes"];
                     StError empty_recording_msg; Removed temp]))).
    { unfold record_audio. rewrite bind_run. simpl.
      rewrite bind_run, created_temp_file. cbv zeta. fold temp.
      rewrite bind_run. unfold os_path_getsize at 1. cbn [fs].
      rewrite lookup_insert_eq. rewrite bind_run. simpl.
      apply Nat.ltb_lt in Hlen. rewrite Hlen.
      rewrite bind_run. rewrite bind_run. simpl.
      rewrite (remove_and_stop_run temp _ bytes) by apply lookup_insert_eq.
      simpl. rewrite <- !app_assoc. reflexivity. }
    rewrite Hrun.
    unfold errors, spawned, created, removed. simpl.
    rewrite !omap_app. simpl. rewrite ?app_nil_r.
    repeat split; auto. apply lookup_delete_eq. }
  split; [exact Hsmall |].
  intros Hspawned. destruct audio as [bytes|].
  - destruct (Nat.lt_ge_cases (length bytes) 100) as [Hlt | Hge].
    + exfalso. apply Hspawned. now apply (Hsmall bytes).
    + now exists bytes.
  - exfalso. apply Hspawned. subst res. unfold record_audio.
    rewrite bind_run. simpl. unfold spawned. rewrite omap_snoc. simpl.
    apply app_nil_r.
Qed.

Lemma record_audio_size_gate_witness :
  let env := sample_env "Hello there, how are you doing today?" "No." in
  let w := mkWorld ∅ [] in
  let small := record_audio env (Some (repeat Byte.x01 99)) w in
  let exact := record_audio env (Some (repeat Byte.x01 100)) w in
  (fst small = Stopped /\ spawned (log (snd small)) = []
   /\ fs (snd small) !! "/tmp/tmpab12cd34.wav" = None)
  /\ spawned (log (snd exact)) <> []
  /\ exists bytes, Some (repeat Byte.x01 100) = Some bytes /\ 100 <= length bytes.
Proof.
  intros env w small exact.
  destruct (record_audio_size_gate env (Some (repeat Byte.x01 99)) w)
    as [Hsmall _].
  destruct (Hsmall (repeat Byte.x01 99) eq_refl ltac:(simpl; lia))
    as (Hstop & _ & Hspawn & _ & _ & Hgone).
  destruct (record_audio_size_gate env (Some (repeat Byte.x01 100)) w)
    as [_ Hexact].
  assert (Hstarted : spawned (log (snd exact)) <> []) by discriminate.
  split; [| split]; [auto | exact Hstarted | exact (Hexact Hstarted)].
Defined.

(** * Further properties of the script *)

(** ** [transcribe_audio] as a function *)

Lemma lower_char_idem (c : ascii) :
  PyStr.lower_char (PyStr.lower_char c) = PyStr.lower_char c.
Proof. destruct c as [[] [] [] [] [] [] [] []]; reflexivity. Qed.

Lemma lower_idem (s : string) : PyStr.lower (PyStr.lower s) = PyStr.lower s.
Proof.
  induction s as [|c s IH]; simpl; [reflexivity |].
  now rewrite lower_char_idem, IH.
Qed.

Lemma string_app_nil_l (s : string) : EmptyString +:+ s = s.
Proof. reflexivity. Qed.

Lemma string_app_cons (c : ascii) (a b : string) :
  String c a +:+ b = String c (a +:+ b).
Proof. reflexivity. Qed.

Lemma string_app_nil_r (s : string) : s +:+ EmptyString = s.
Proof.
  induction s as [|c s IH]; [reflexivity |].
  now rewrite string_app_cons, IH.
Qed.

(** X1: [transcribe_audio] never stops the script and lets no
    exception of the file system or of the model through: it returns
    either a text without an error or an error message (not empty)
    without a text.  It shows no error on the page and makes no call of
    [os.remove], of [subprocess.run] or of the classifier: showing the
    error and removing the files is left to the caller. *)
Theorem transcribe_audio_text_or_error
    (env : Env) (audio_path : string) (w : World) :
  exists text error w',
    transcribe_audio env audio_path w = (Val (text, error), w')
    /\ ((exists t, text = Some t /\ error = None)
        \/ (text = None /\ exists e, error = Some e /\ e <> EmptyString))
    /\ errors (log w') = errors (log w)
    /\ removed (log w') = removed (log w)
    /\ spawned (log w') = spawned (log w)
    /\ prompts (log w') = prompts (log w).
Proof.
  rewrite transcribe_audio_run.
  assert (Hmsg : forall m, "Error transcribing audio: " +:+ m <> EmptyString)
    by (intros m; rewrite !string_app_cons; discriminate).
  assert (Hlog : forall l,
             Forall (fun e => is_model_event e = true) l ->
             errors (log w ++ l) = errors (log w)
             /\ removed (log w ++ l) = removed (log w)
             /\ spawned (log w ++ l) = spawned (log w)
             /\ prompts (log w ++ l) = prompts (log w)).
  { intros l Hl. unfold errors, spawned, removed, prompts.
    rewrite !omap_app.
    assert (Hnone : omap error_of l = [] /\ omap removed_of l = []
                    /\ omap spawned_of l = [] /\ omap prompt_of l = []).
    { induction Hl as [|e l He _ IH]; [now repeat split |].
      destruct e; try discriminate He; simpl; exact IH. }
    destruct Hnone as (-> & -> & -> & ->). now rewrite !app_nil_r. }
  pose proof (Hlog [] ltac:(constructor)) as H0. rewrite app_nil_r in H0.
  pose proof (Hlog [LoadModel "medium"] ltac:(repeat constructor)) as H1.
  pose proof (Hlog ([LoadModel "medium"] ++ [Inference audio_path "en"])
                ltac:(repeat constructor)) as H2.
  rewrite app_assoc in H2.
  destruct (fs w !! audio_path) as [data|].
  2: { eexists _, _, _. split; [reflexivity |]. split; [right; eauto | exact H0]. }
  destruct (length data <? 100)%nat.
  { eexists _, _, _. split; [reflexivity |].
    split; [right; split; [reflexivity |]; eexists; split; [reflexivity | discriminate] |].
    exact H0. }
  cbv zeta.
  destruct (whisper_load env "medium").
  2: { eexists _, _, _. split; [reflexivity |]. split; [right; eauto | exact H1]. }
  destruct (whisper_transcribe env data "en") as [heard|].
  2: { eexists _, _, _. split; [reflexivity |]. split; [right; eauto | exact H2]. }
  destruct (PyStr.all_space heard).
  - eexists _, _, _. split; [reflexivity |].
    split; [right; split; [reflexivity |]; eexists; split; [reflexivity | discriminate] |].
    exact H2.
  - eexists _, _, _. split; [reflexivity |]. split; [left; eauto | exact H2].
Qed.

(** X2: a failure of the speech model is returned, not raised.  When
    loading the model fails, the message is the exception's text after
    [Error transcribing audio: ] and inference is not attempted; when
    inference fails, the message is built the same way. *)
Theorem transcribe_audio_wraps_model_errors
    (env : Env) (audio_path msg : string) (data : list Byte.byte) (w : World) :
  fs w !! audio_path = Some data ->
  100 <= length data ->
  let r := fst (transcribe_audio env audio_path w) in
  let w' := snd (transcribe_audio env audio_path w) in
  (whisper_load env "medium" = Throws msg ->
   r = Val (None, Some (transcription_error_msg msg))
   /\ log w' = log w ++ [LoadModel "medium"])
  /\ ((exists u, whisper_load env "medium" = Returns u) ->
      whisper_transcribe env data "en" = Throws msg ->
      r = Val (None, Some (transcription_error_msg msg))
      /\ log w' = log w ++ [LoadModel "medium"; Inference audio_path "en"]).
Proof.
  intros Hfile Hbig r w'. subst r w'. rewrite transcribe_audio_run, Hfile.
  apply Nat.ltb_ge in Hbig. rewrite Hbig. cbv zeta. split.
  - intros ->. split; reflexivity.
  - intros [u ->] ->. simpl. split; [reflexivity |].
    now rewrite <- app_assoc.
Qed.

Lemma transcribe_audio_wraps_model_errors_witness :
  let path := "/tmp/tmpab12cd34.tmp.wav" in
  let w := mkWorld {[ path := repeat Byte.x00 4096 ]} [] in
  let no_model :=
    mkEnv "/tmp/tmpab12cd34" (fun _ => NoSuchExecutable)
          (fun _ => Throws "CUDA out of memory") (fun _ _ => Returns "hello")
          (fun _ _ => Returns "no") (fun _ => true) (Some "key") None None errno2_text in
  let no_inference :=
    mkEnv "/tmp/tmpab12cd34" (fun _ => NoSuchExecutable)
          (fun _ => Returns tt) (fun _ _ => Throws "Failed to load audio")
          (fun _ _ => Returns "no") (fun _ => true) (Some "key") None None errno2_text in
  (fst (transcribe_audio no_model path w)
     = Val (None, Some "Error transcribing audio: CUDA out of memory")
   /\ log (snd (transcribe_audio no_model path w)) = [LoadModel "medium"])
  /\ (fst (transcribe_audio no_inference path w)
        = Val (None, Some "Error transcribing audio: Failed to load audio")
      /\ log (snd (transcribe_audio no_inference path w))
         = [LoadModel "medium"; Inference path "en"]).
Proof.
  intros path w no_model no_inference. split.
  - apply (proj1 (transcribe_audio_wraps_model_errors no_model path
                    "CUDA out of memory" (repeat Byte.x00 4096) w
                    eq_refl ltac:(simpl; lia))).
    reflexivity.
  - apply (proj2 (transcribe_audio_wraps_model_errors no_inference path
                    "Failed to load audio" (repeat Byte.x00 4096) w
                    eq_refl ltac:(simpl; lia))).
    + now exists tt.
    + reflexivity.
Defined.

(** X3: on a path where no file is, [transcribe_audio] returns as its
    error [Error transcribing audio: ] followed by the text of the
    operating system's error for that path, whatever that text is; it
    makes no call of the model and logs nothing. *)
Theorem transcribe_audio_missing_file
    (env : Env) (audio_path : string) (w : World) :
  fs w !! audio_path = None ->
  transcribe_audio env audio_path w
  = (Val (None,
          Some (transcription_error_msg (missing_file_text env audio_path))),
     w).
Proof. intros Hfile. now rewrite transcribe_audio_run, Hfile. Qed.

Lemma transcribe_audio_missing_file_witness :
  fs (mkWorld ∅ []) !! "/tmp/gone.wav" = None
  /\ transcribe_audio (sample_env "hello" "no") "/tmp/gone.wav" (mkWorld ∅ [])
     = (Val (None,
             Some "Error transcribing audio: [Errno 2] No such file or directory: '/tmp/gone.wav'"),
        mkWorld ∅ []).
Proof.
  split; [reflexivity |].
  apply (transcribe_audio_missing_file (sample_env "hello" "no") "/tmp/gone.wav"
           (mkWorld ∅ [])).
  reflexivity.
Defined.

(** X4: a text of the model that is not blank is returned as it is,
    with the whitespace around it: [strip] is used for the test only.
    The model was loaded once and run once for it. *)
Theorem transcribe_audio_returns_raw_text
    (env : Env) (audio_path text : string) (data : list Byte.byte) (w : World) :
  fs w !! audio_path = Some data ->
  100 <= length data ->
  (exists u, whisper_load env "medium" = Returns u) ->
  whisper_transcribe env data "en" = Returns text ->
  PyStr.all_space text = false ->
  transcribe_audio env audio_path w
  = (Val (Some text, None),
     mkWorld (fs w) (log w ++ [LoadModel "medium"; Inference audio_path "en"])).
Proof.
  intros Hfile Hbig [u Hload] Hheard Hblank.
  rewrite transcribe_audio_run, Hfile, Hload, Hheard, Hblank.
  apply Nat.ltb_ge in Hbig. rewrite Hbig. cbv zeta.
  now rewrite <- app_assoc.
Qed.

Lemma transcribe_audio_returns_raw_text_witness :
  let path := "/tmp/tmpab12cd34.tmp.wav" in
  let w := mkWorld {[ path := repeat Byte.x00 4096 ]} [] in
  PyStr.strip " Hello there. " <> " Hello there. "
  /\ transcribe_audio (sample_env " Hello there. " "no") path w
     = (Val (Some " Hello there. ", None),
        mkWorld (fs w) [LoadModel "medium"; Inference path "en"]).
Proof.
  intros path w. split; [discriminate |].
  apply (transcribe_audio_returns_raw_text (sample_env " Hello there. " "no")
           path " Hello there. " (repeat Byte.x00 4096) w);
    [reflexivity | simpl; lia | now exists tt | reflexivity | reflexivity].
Defined.

(** What [transcribe_audio] returns and logs depends on the bytes of
    the file only. *)
Lemma transcribe_audio_local (env : Env) (audio_path : string) (w1 w2 : World) :
  fs w1 !! audio_path = fs w2 !! audio_path ->
  exists r l,
    transcribe_audio env audio_path w1 = (Val r, mkWorld (fs w1) (log w1 ++ l))
    /\ transcribe_audio env audio_path w2 = (Val r, mkWorld (fs w2) (log w2 ++ l))
    /\ Forall (fun e => is_model_event e = true) l.
Proof.
  intros Hsame. rewrite !transcribe_audio_run, <- Hsame.
  assert (Hw : forall w, w = mkWorld (fs w) (log w ++ []))
    by (intros [f l]; simpl; now rewrite app_nil_r).
  destruct (fs w1 !! audio_path) as [data|].
  2: { eexists _, []. rewrite <- !Hw. repeat split; constructor. }
  destruct (length data <? 100)%nat.
  { eexists _, []. rewrite <- !Hw. repeat split; constructor. }
  cbv zeta. destruct (whisper_load env "medium").
  2: { eexists _, [_]. repeat split. repeat constructor. }
  destruct (whisper_transcribe env data "en") as [heard|].
  2: { eexists _, [_; _]. rewrite <- !app_assoc. repeat split. repeat constructor. }
  destruct (PyStr.all_space heard);
    (eexists _, [_; _]; rewrite <- !app_assoc; repeat split; repeat constructor).
Qed.

(** ** [analyze_text] as a function *)

Lemma prompt_for_template (text : string) :
  prompt_for text = prompt_template +:+ text.
Proof.
  unfold prompt_template, prompt_for.
  rewrite !PyStrFacts.append_assoc. reflexivity.
Qed.

(** X5: every call of [analyze_text] sends one request, to the model
    [gemini-1.5-flash]; its prompt is the fixed instruction text followed
    by the transcript, character for character.  The call never raises
    and leaves the file system as it was. *)
Theorem analyze_text_single_request (env : Env) (text : string) (w : World) :
  let w' := snd (analyze_text env text w) in
  (exists r, fst (analyze_text env text w) = Val r)
  /\ classifier_calls (log w')
     = classifier_calls (log w) ++ [("gemini-1.5-flash", prompt_template +:+ text)]
  /\ fs w' = fs w.
Proof.
  intros w'. subst w'. rewrite analyze_text_run, <- (prompt_for_template text).
  cbv zeta. unfold classifier_calls.
  destruct (gemini env _ _) as [response|msg].
  - destruct (verdict_of response) as [[result explanation] color]. simpl.
    rewrite omap_snoc. simpl. eauto.
  - simpl. rewrite !omap_snoc. simpl. rewrite app_nil_r. eauto.
Qed.

(** X6: [analyze_text] gives a whole verdict or none.  When the
    classifier answers, result, explanation and colour are all set and no
    error is shown; when the request fails, all three are [None] and one
    error is shown, the exception's text after
    [Error analyzing text with Gemini API: ]. *)
Theorem analyze_text_all_or_nothing (env : Env) (text : string) (w : World) :
  let r := fst (analyze_text env text w) in
  let w' := snd (analyze_text env text w) in
  (exists response result color,
      gemini env "gemini-1.5-flash" (prompt_for text) = Returns response
      /\ r = Val (Some result, Some response, Some color)
      /\ errors (log w') = errors (log w))
  \/ (exists msg,
         gemini env "gemini-1.5-flash" (prompt_for text) = Throws msg
         /\ r = Val (None, None, None)
         /\ errors (log w') = errors (log w) ++ [classifier_error_msg msg]).
Proof.
  intros r w'. subst r w'. rewrite analyze_text_run. cbv zeta. unfold errors.
  destruct (gemini env _ _) as [response|msg].
  - left. unfold verdict_of.
    destruct (if PyStr.contains "yes" (PyStr.lower response)
              then ("Scam detected!", "red")
              else if PyStr.contains "no" (PyStr.lower response)
                   then ("Not a scam.", "green")
                   else ("Unable to determine.", "orange")) as [result color].
    exists response, result, color. simpl. rewrite omap_snoc. simpl.
    rewrite app_nil_r. auto.
  - right. exists msg. simpl. rewrite !omap_snoc. simpl.
    rewrite app_nil_r. auto.
Qed.

(** ** The verdict and the casing of the reply *)

(** X7: the keyword is found in any casing and anywhere in the reply,
    also inside a longer word: a reply that holds [yes] in some casing is
    a scam verdict; a reply that holds [no] in some casing and no [yes]
    is a not-a-scam verdict. *)
Theorem verdict_any_casing (before word after : string) :
  let reply := before +:+ word +:+ after in
  (PyStr.lower word = "yes" ->
   verdict_of reply = ("Scam detected!", reply, "red"))
  /\ (PyStr.lower word = "no" ->
      ~ occurs "yes" (PyStr.lower reply) ->
      verdict_of reply = ("Not a scam.", reply, "green")).
Proof.
  intros reply. unfold verdict_of. split.
  - intros Hword.
    assert (H : PyStr.contains "yes" (PyStr.lower reply) = true).
    { apply contains_spec. apply (occurs_any_case word); [exact Hword |].
      now exists before, after. }
    now rewrite H.
  - intros Hword Hno.
    apply contains_false in Hno. rewrite Hno.
    assert (H : PyStr.contains "no" (PyStr.lower reply) = true).
    { apply contains_spec. apply (occurs_any_case word); [exact Hword |].
      now exists before, after. }
    now rewrite H.
Qed.

Lemma verdict_any_casing_witness :
  verdict_of ("Her e" +:+ "YeS" +:+ " were red.")
    = ("Scam detected!", "Her eYeS were red.", "red")
  /\ verdict_of ("I do not k" +:+ "No" +:+ "w.")
     = ("Not a scam.", "I do not kNow.", "green").
Proof.
  split.
  - apply (proj1 (verdict_any_casing "Her e" "YeS" " were red.")). reflexivity.
  - apply (proj2 (verdict_any_casing "I do not k" "No" "w.")).
    + reflexivity.
    + apply contains_false. reflexivity.
Defined.

(** X8: the verdict does not depend on the casing of the reply: the
    lower-cased reply gets the same result and the same colour. *)
Theorem verdict_ignores_casing (reply : string) :
  fst (fst (verdict_of (PyStr.lower reply))) = fst (fst (verdict_of reply))
  /\ snd (verdict_of (PyStr.lower reply)) = snd (verdict_of reply).
Proof.
  unfold verdict_of. rewrite lower_idem.
  destruct (PyStr.contains "yes" (PyStr.lower reply));
    [| destruct (PyStr.contains "no" (PyStr.lower reply))]; split; reflexivity.
Qed.

(** ** [convert_to_wav] and the files *)

(** X9: [convert_to_wav] makes no call of [os.remove]: the input file
    is left to the caller, on success and on failure alike.  When the
    decoder exits with status 0 and what it wrote to its standard streams
    is text, the call returns the output path it was given and shows no
    error. *)
Theorem convert_to_wav_removes_nothing
    (env : Env) (audio_path output_path : string) (w : World) :
  let r := fst (convert_to_wav env audio_path output_path w) in
  let w' := snd (convert_to_wav env audio_path output_path w) in
  removed (log w') = removed (log w)
  /\ (forall err out,
         run env (ffmpeg_argv audio_path output_path) = Ran 0 err out ->
         r = Val (Some output_path) /\ errors (log w') = errors (log w)).
Proof.
  intros r w'. subst r w'. rewrite convert_to_wav_run. cbv zeta.
  unfold removed, errors.
  destruct (run env _) as [|rc err out|rc msg out|msg]; simpl.
  - rewrite !omap_snoc. simpl. rewrite !app_nil_r. split; [reflexivity | discriminate].
  - destruct (rc =? 0)%Z eqn:Hrc; destruct out as [data|]; simpl;
      rewrite !omap_snoc; simpl; rewrite ?app_nil_r;
      (split; [reflexivity |]);
      intros err' out' Heq; inversion Heq; subst; try discriminate Hrc;
      rewrite ?omap_snoc; simpl; rewrite ?app_nil_r; auto.
  - destruct out as [data|]; simpl; rewrite !omap_snoc; simpl;
      rewrite ?app_nil_r; (split; [reflexivity | discriminate]).
  - rewrite !omap_snoc. simpl. rewrite !app_nil_r. split; [reflexivity | discriminate].
Qed.

Lemma convert_to_wav_removes_nothing_witness :
  let w := mkWorld {[ "/tmp/tmpab12cd34.tmp" := repeat Byte.x01 2048 ]} [] in
  let res := convert_to_wav (sample_env "hi" "no")
               "/tmp/tmpab12cd34.tmp" "/tmp/tmpab12cd34.tmp.wav" w in
  removed (log (snd res)) = []
  /\ fst res = Val (Some "/tmp/tmpab12cd34.tmp.wav")
  /\ errors (log (snd res)) = [].
Proof.
  intros w res.
  destruct (convert_to_wav_removes_nothing (sample_env "hi" "no")
              "/tmp/tmpab12cd34.tmp" "/tmp/tmpab12cd34.tmp.wav" w)
    as (Hkeep & Hok).
  split; [exact Hkeep |].
  apply (Hok EmptyString (Some (repeat Byte.x00 4096))). reflexivity.
Defined.

(** ** The stages of the pipeline, one by one *)

Section Stages.

Variable env : Env.

(** After a conversion that succeeded, [convert_and_analyze] plays the
    result and goes on with the button. *)
Lemma convert_and_analyze_converted (too_short temp wav err : string)
    (data : list Byte.byte) (w : World) :
  wav <> EmptyString ->
  run env (ffmpeg_argv temp wav) = Ran 0 err (Some data) ->
  convert_and_analyze env too_short temp wav w
  = ((if button env "Analyze" then analyze_clicked env too_short temp wav
      else mret tt);;
     os_remove temp;; os_remove wav)
      (mkWorld (<[wav := data]> (fs w))
         (log w ++ [Spawned (ffmpeg_argv temp wav); Created wav;
                    StAudio wav "audio/wav"])).
Proof.
  intros Hwav Hrun. unfold convert_and_analyze.
  rewrite bind_run, convert_to_wav_run. cbv zeta. rewrite Hrun. simpl.
  destruct wav as [|c wav'] eqn:Ewav; [contradiction |]. rewrite <- Ewav in *.
  clear Ewav c wav'.
  rewrite bind_run, (st_audio_run wav "audio/wav" _ data)
    by apply lookup_insert_eq.
  rewrite bind_run. unfold st_button. simpl.
  now rewrite <- !app_assoc.
Qed.

(** The steps of [analyze_clicked] up to the classifier, for a
    transcript of 5 words or more. *)
Lemma analyze_clicked_long_enough (too_short temp wav t : string)
    (data : list Byte.byte) (w : World) :
  fs w !! wav = Some data ->
  100 <= length data ->
  (exists u, whisper_load env "medium" = Returns u) ->
  whisper_transcribe env data "en" = Returns t ->
  PyStr.all_space t = false ->
  5 <= length (PyStr.split t) ->
  analyze_clicked env too_short temp wav w
  = ('(result, explanation, color) ← analyze_text env t;
     if opt_truthy result then
       st_markdown ("<h3 style='color:" +:+ str_of color +:+ "'>"
                      +:+ str_of result +:+ "</h3>");;
       st_write ["Explanation:"; str_of explanation]
     else mret tt)
      (mkWorld (fs w)
         (log w ++ [LoadModel "medium"; Inference wav "en";
                    StWrite ["Transcription:"; t]])).
Proof.
  intros Hwav Hbig [u Hload] Hheard Hblank Hlong.
  unfold analyze_clicked.
  rewrite bind_run, transcribe_audio_run, Hwav.
  apply Nat.ltb_ge in Hbig. rewrite Hbig, Hload, Hheard, Hblank. cbv zeta.
  simpl. rewrite bind_run. simpl. rewrite bind_run. simpl.
  apply Nat.ltb_ge in Hlong. rewrite Hlong.
  rewrite bind_run. simpl. now rewrite <- !app_assoc.
Qed.

(** The button pressed and the transcription failing with [e]. *)
Lemma analyze_clicked_error (too_short temp wav e : string)
    (b data : list Byte.byte) (text : option string) (w : World) :
  fs w !! temp = Some b -> fs w !! wav = Some data -> temp <> wav ->
  fst (transcribe_audio env wav (mkWorld {[ wav := data ]} []))
    = Val (text, Some e) ->
  exists l,
    Forall (fun ev => is_model_event ev = true) l
    /\ analyze_clicked env too_short temp wav w
       = (Stopped,
          mkWorld (delete wav (delete temp (fs w)))
            (log w ++ l ++ [StError e; Removed temp; Removed wav])).
Proof.
  intros Htemp Hwav Hne Herr.
  destruct (transcribe_audio_local env wav (mkWorld {[ wav := data ]} []) w)
    as (r & l & Hrun1 & Hrun2 & Hl).
  { simpl. rewrite Hwav. apply lookup_singleton_eq. }
  rewrite Hrun1 in Herr. simpl in Herr. inversion Herr; subst r. clear Herr.
  destruct (transcribe_audio_quiet env wav w)
    as (text' & error' & w1 & Hrun & _ & Hcase).
  rewrite Hrun2 in Hrun. inversion Hrun; subst text' error' w1. clear Hrun.
  destruct Hcase as [Htruthy | [Hnone _]]; [| discriminate].
  exists l. split; [exact Hl |].
  unfold analyze_clicked. rewrite bind_run, Hrun2. cbn beta iota.
  rewrite Htruthy, bind_run.
  rewrite (fail_and_clean_run _ temp wav _ b data) by assumption.
  simpl. now rewrite <- !app_assoc.
Qed.

End Stages.

(** X10: when [convert_to_wav] reports a failure (the executable is
    not found, or the decoder exits with a non-zero status and what it
    wrote to its standard streams is text), the pipeline shows the
    message, removes the input file and stops: nothing is played,
    transcribed or classified.  A file that the failing decoder has left
    at the output path is not removed.  When [subprocess.run] raises
    another exception (its output is no text, the executable may not be
    run), the pipeline ends by that exception: nothing is shown and the
    input file is not removed. *)
Theorem conversion_failure_stops
    (env : Env) (too_short temp wav : string) (b : list Byte.byte) (w : World) :
  fs w !! temp = Some b ->
  temp <> wav ->
  let argv := ffmpeg_argv temp wav in
  let res := convert_and_analyze env too_short temp wav w in
  (run env argv = NoSuchExecutable ->
   res = (Stopped,
          mkWorld (delete temp (fs w))
            (log w ++ [Spawned argv; StError ffmpeg_missing_msg; Removed temp])))
  /\ (forall rc err,
         rc <> 0%Z -> run env argv = Ran rc err None ->
         res = (Stopped,
                mkWorld (delete temp (fs w))
                  (log w ++ [Spawned argv;
                             StError ("Error converting audio to WAV: " +:+ err);
                             Removed temp])))
  /\ (forall rc err data,
         rc <> 0%Z -> run env argv = Ran rc err (Some data) ->
         res = (Stopped,
                mkWorld (delete temp (<[wav := data]> (fs w)))
                  (log w ++ [Spawned argv; Created wav;
                             StError ("Error converting audio to WAV: " +:+ err);
                             Removed temp]))
         /\ fs (snd res) !! wav = Some data)
  /\ (forall msg,
         (exists rc out, run env argv = RanUndecodable rc msg out)
         \/ run env argv = CannotExecute msg ->
         fst res = Raised (OtherException msg)
         /\ errors (log (snd res)) = errors (log w)
         /\ removed (log (snd res)) = removed (log w)
         /\ fs (snd res) !! temp = Some b).
Proof.
  intros Htemp Hne argv res. subst res. unfold convert_and_analyze.
  rewrite bind_run, convert_to_wav_run. cbv zeta. fold argv.
  refine (conj _ (conj _ (conj _ _))).
  - intros ->. rewrite (remove_and_stop_run temp _ b) by exact Htemp.
    simpl. now rewrite <- !app_assoc.
  - intros rc err Hrc ->. apply Z.eqb_neq in Hrc. rewrite Hrc.
    rewrite (remove_and_stop_run temp _ b) by exact Htemp.
    simpl. now rewrite <- !app_assoc.
  - intros rc err data Hrc ->. apply Z.eqb_neq in Hrc. rewrite Hrc.
    rewrite (remove_and_stop_run temp _ b)
      by (simpl; rewrite lookup_insert_ne by congruence; exact Htemp).
    simpl. split; [now rewrite <- !app_assoc |].
    rewrite lookup_delete_ne by congruence. apply lookup_insert_eq.
  - unfold errors, removed.
    intros msg [(rc & out & ->) | ->]; [destruct out as [data|] |]; simpl;
      rewrite !omap_snoc; simpl; rewrite ?app_nil_r;
      repeat split; auto.
    rewrite lookup_insert_ne by congruence. exact Htemp.
Qed.

Lemma conversion_failure_stops_witness :
  let env := mkEnv "/tmp/tmpab12cd34" (fun _ => NoSuchExecutable)
               (fun _ => Returns tt) (fun _ _ => Returns "hello")
               (fun _ _ => Returns "no") (fun _ => true) (Some "key") None None errno2_text in
  let temp := "/tmp/tmpab12cd34.tmp" in
  let wav := "/tmp/tmpab12cd34.tmp.wav" in
  let w := mkWorld {[ temp := repeat Byte.x01 2048 ]} [Created temp] in
  convert_and_analyze env upload_too_short_msg temp wav w
  = (Stopped,
     mkWorld (delete temp (fs w))
       [Created temp; Spawned (ffmpeg_argv temp wav);
        StError ffmpeg_missing_msg; Removed temp]).
Proof.
  intros env temp wav w.
  apply (proj1 (conversion_failure_stops env upload_too_short_msg temp wav
                  (repeat Byte.x01 2048) w eq_refl ltac:(discriminate))).
  reflexivity.
Defined.

(** X11: as long as the Analyze button is not pressed, a converted clip
    is played and both temporary files are removed again; the speech
    model and the classifier are not called. *)
Theorem without_button_nothing_is_analyzed
    (env : Env) (too_short temp wav err : string) (b data : list Byte.byte)
    (w : World) :
  fs w !! temp = Some b ->
  temp <> wav ->
  wav <> EmptyString ->
  run env (ffmpeg_argv temp wav) = Ran 0 err (Some data) ->
  button env "Analyze" = false ->
  convert_and_analyze env too_short temp wav w
  = (Val tt,
     mkWorld (delete wav (delete temp (<[wav := data]> (fs w))))
       (log w ++ [Spawned (ffmpeg_argv temp wav); Created wav;
                  StAudio wav "audio/wav"; Removed temp; Removed wav])).
Proof.
  intros Htemp Hne Hwav Hrun Hbutton.
  rewrite (convert_and_analyze_converted env _ temp wav err data w Hwav Hrun).
  rewrite Hbutton, bind_run. simpl.
  rewrite (remove_both_run temp wav _ b data); simpl.
  - now rewrite <- !app_assoc.
  - rewrite lookup_insert_ne by congruence. exact Htemp.
  - apply lookup_insert_eq.
  - exact Hne.
Qed.

Lemma without_button_nothing_is_analyzed_witness :
  let env := mkEnv "/tmp/tmpab12cd34"
               (fun _ => Ran 0 EmptyString (Some (repeat Byte.x00 4096)))
               (fun _ => Returns tt) (fun _ _ => Returns "hello")
               (fun _ _ => Returns "no") (fun _ => false) (Some "key") None None errno2_text in
  let temp := "/tmp/tmpab12cd34.wav" in
  let wav := "/tmp/tmpab12cd34.wav_converted.wav" in
  let w := mkWorld {[ temp := repeat Byte.x01 2048 ]} [Created temp] in
  let res := convert_and_analyze env record_too_short_msg temp wav w in
  fst res = Val tt
  /\ model_calls (log (snd res)) = [] /\ prompts (log (snd res)) = []
  /\ fs (snd res) = ∅.
Proof.
  intros env temp wav w res. subst res.
  rewrite (without_button_nothing_is_analyzed env record_too_short_msg temp wav
             EmptyString (repeat Byte.x01 2048) (repeat Byte.x00 4096) w
             eq_refl ltac:(discriminate) ltac:(discriminate) eq_refl eq_refl).
  repeat split; vm_compute; reflexivity.
Defined.

(** X12: when the button is pressed and [transcribe_audio] reports an
    error for the converted file (too small, model failure, blank text),
    the pipeline shows that error, removes both temporary files and
    stops; the classifier is not called. *)
Theorem transcription_failure_stops
    (env : Env) (too_short temp wav err e : string) (text : option string)
    (b data : list Byte.byte) (w : World) :
  fs w !! temp = Some b ->
  temp <> wav ->
  wav <> EmptyString ->
  run env (ffmpeg_argv temp wav) = Ran 0 err (Some data) ->
  button env "Analyze" = true ->
  fst (transcribe_audio env wav (mkWorld {[ wav := data ]} []))
    = Val (text, Some e) ->
  exists l,
    Forall (fun ev => is_model_event ev = true) l
    /\ convert_and_analyze env too_short temp wav w
       = (Stopped,
          mkWorld (delete wav (delete temp (<[wav := data]> (fs w))))
            (log w ++ [Spawned (ffmpeg_argv temp wav); Created wav;
                       StAudio wav "audio/wav"]
               ++ l ++ [StError e; Removed temp; Removed wav])).
Proof.
  intros Htemp Hne Hwav Hrun Hbutton Herr.
  rewrite (convert_and_analyze_converted env _ temp wav err data w Hwav Hrun).
  rewrite Hbutton, bind_run.
  destruct (analyze_clicked_error env too_short temp wav e b data text
              (mkWorld (<[wav := data]> (fs w))
                 (log w ++ [Spawned (ffmpeg_argv temp wav); Created wav;
                            StAudio wav "audio/wav"])))
    as (l & Hl & ->); simpl; auto.
  - rewrite lookup_insert_ne by congruence. exact Htemp.
  - apply lookup_insert_eq.
  - exists l. split; [exact Hl |]. now rewrite <- !app_assoc.
Qed.

Lemma transcription_failure_stops_witness :
  let env := sample_env "   " "no" in
  let temp := "/tmp/tmpab12cd34.tmp" in
  let wav := "/tmp/tmpab12cd34.tmp.wav" in
  let w := mkWorld {[ temp := repeat Byte.x01 2048 ]} [Created temp] in
  exists l,
    Forall (fun ev => is_model_event ev = true) l
    /\ convert_and_analyze env upload_too_short_msg temp wav w
       = (Stopped,
          mkWorld (delete wav (delete temp
                                 (<[wav := repeat Byte.x00 4096]> (fs w))))
            (log w ++ [Spawned (ffmpeg_argv temp wav); Created wav;
                       StAudio wav "audio/wav"]
               ++ l ++ [StError "Transcription is empty."; Removed temp;
                        Removed wav])).
Proof.
  intros env temp wav w.
  apply (transcription_failure_stops env upload_too_short_msg temp wav
           EmptyString "Transcription is empty." None
           (repeat Byte.x01 2048) (repeat Byte.x00 4096) w);
    [reflexivity | discriminate | discriminate | reflexivity | reflexivity
    | reflexivity].
Defined.

(** X13: the run that reaches the end.  With a converted clip, the
    button pressed, a transcript of 5 words or more and an answer of the
    classifier, the pipeline shows the transcript, sends one prompt,
    shows the result in its colour and the answer as explanation, removes
    both temporary files and ends without [st.stop()]. *)
Theorem classified_run
    (env : Env) (too_short temp wav err t reply : string)
    (b data : list Byte.byte) (w : World) :
  fs w !! temp = Some b ->
  temp <> wav ->
  wav <> EmptyString ->
  run env (ffmpeg_argv temp wav) = Ran 0 err (Some data) ->
  button env "Analyze" = true ->
  100 <= length data ->
  (exists u, whisper_load env "medium" = Returns u) ->
  whisper_transcribe env data "en" = Returns t ->
  PyStr.all_space t = false ->
  5 <= length (PyStr.split t) ->
  gemini env "gemini-1.5-flash" (prompt_for t) = Returns reply ->
  convert_and_analyze env too_short temp wav w
  = (Val tt,
     mkWorld (delete wav (delete temp (<[wav := data]> (fs w))))
       (log w ++ [Spawned (ffmpeg_argv temp wav); Created wav;
                  StAudio wav "audio/wav"; LoadModel "medium";
                  Inference wav "en"; StWrite ["Transcription:"; t];
                  GenerateContent "gemini-1.5-flash" (prompt_for t);
                  StMarkdown ("<h3 style='color:" +:+ snd (verdict_of reply)
                                +:+ "'>" +:+ fst (fst (verdict_of reply))
                                +:+ "</h3>");
                  StWrite ["Explanation:"; reply];
                  Removed temp; Removed wav])).
Proof.
  intros Htemp Hne Hwav Hrun Hbutton Hbig Hload Hheard Hblank Hlong Hreply.
  rewrite (convert_and_analyze_converted env _ temp wav err data w Hwav Hrun).
  rewrite Hbutton, bind_run.
  rewrite (analyze_clicked_long_enough env too_short temp wav t data _
             (lookup_insert_eq _ _ _) Hbig Hload Hheard Hblank Hlong).
  rewrite bind_run, analyze_text_run, Hreply. cbv zeta.
  unfold verdict_of.
  destruct (PyStr.contains "yes" (PyStr.lower reply));
    [| destruct (PyStr.contains "no" (PyStr.lower reply))];
    simpl;
    (rewrite (remove_both_run temp wav _ b data); simpl;
     [ now rewrite <- !app_assoc
     | rewrite lookup_insert_ne by congruence; exact Htemp
     | apply lookup_insert_eq
     | exact Hne ]).
Qed.

Lemma classified_run_witness :
  let t := "Hello this is your bank calling about your account please provide your card number now" in
  let reply := "Yes, this resembles a scam due to urgency and request for sensitive data." in
  let env := sample_env t reply in
  let temp := "/tmp/tmpab12cd34.tmp" in
  let wav := "/tmp/tmpab12cd34.tmp.wav" in
  let w := mkWorld {[ temp := repeat Byte.x01 2048 ]} [Created temp] in
  convert_and_analyze env upload_too_short_msg temp wav w
  = (Val tt,
     mkWorld (delete wav (delete temp (<[wav := repeat Byte.x00 4096]> (fs w))))
       [Created temp; Spawned (ffmpeg_argv temp wav); Created wav;
        StAudio wav "audio/wav"; LoadModel "medium"; Inference wav "en";
        StWrite ["Transcription:"; t];
        GenerateContent "gemini-1.5-flash" (prompt_for t);
        StMarkdown "<h3 style='color:red'>Scam detected!</h3>";
        StWrite ["Explanation:"; reply];
        Removed temp; Removed wav]).
Proof.
  intros t reply env temp wav w.
  apply (classified_run env upload_too_short_msg temp wav EmptyString t reply
           (repeat Byte.x01 2048) (repeat Byte.x00 4096) w);
    [ reflexivity | discriminate | discriminate | reflexivity | reflexivity
    | simpl; lia | now exists tt | reflexivity | reflexivity
    | vm_compute; lia | reflexivity ].
Defined.

(** X14: when the request to the classifier fails, the pipeline shows
    the error, shows no verdict, removes both temporary files and ends
    without [st.stop()]. *)
Theorem classifier_failure_run
    (env : Env) (too_short temp wav err t msg : string)
    (b data : list Byte.byte) (w : World) :
  fs w !! temp = Some b ->
  temp <> wav ->
  wav <> EmptyString ->
  run env (ffmpeg_argv temp wav) = Ran 0 err (Some data) ->
  button env "Analyze" = true ->
  100 <= length data ->
  (exists u, whisper_load env "medium" = Returns u) ->
  whisper_transcribe env data "en" = Returns t ->
  PyStr.all_space t = false ->
  5 <= length (PyStr.split t) ->
  gemini env "gemini-1.5-flash" (prompt_for t) = Throws msg ->
  convert_and_analyze env too_short temp wav w
  = (Val tt,
     mkWorld (delete wav (delete temp (<[wav := data]> (fs w))))
       (log w ++ [Spawned (ffmpeg_argv temp wav); Created wav;
                  StAudio wav "audio/wav"; LoadModel "medium";
                  Inference wav "en"; StWrite ["Transcription:"; t];
                  GenerateContent "gemini-1.5-flash" (prompt_for t);
                  StError (classifier_error_msg msg);
                  Removed temp; Removed wav])).
Proof.
  intros Htemp Hne Hwav Hrun Hbutton Hbig Hload Hheard Hblank Hlong Hreply.
  rewrite (convert_and_analyze_converted env _ temp wav err data w Hwav Hrun).
  rewrite Hbutton, bind_run.
  rewrite (analyze_clicked_long_enough env too_short temp wav t data _
             (lookup_insert_eq _ _ _) Hbig Hload Hheard Hblank Hlong).
  rewrite bind_run, analyze_text_run, Hreply. cbv zeta. simpl.
  rewrite (remove_both_run temp wav _ b data); simpl.
  - now rewrite <- !app_assoc.
  - rewrite lookup_insert_ne by congruence. exact Htemp.
  - apply lookup_insert_eq.
  - exact Hne.
Qed.

Lemma classifier_failure_run_witness :
  let t := "Hey just checking if we're still on for lunch tomorrow" in
  let env := mkEnv "/tmp/tmpab12cd34"
               (fun _ => Ran 0 EmptyString (Some (repeat Byte.x00 4096)))
               (fun _ => Returns tt) (fun _ _ => Returns t)
               (fun _ _ => Throws "429 quota exceeded") (fun _ => true)
               (Some "key") None None errno2_text in
  let temp := "/tmp/tmpab12cd34.wav" in
  let wav := "/tmp/tmpab12cd34.wav_converted.wav" in
  let w := mkWorld {[ temp := repeat Byte.x01 2048 ]} [Created temp] in
  let res := convert_and_analyze env record_too_short_msg temp wav w in
  fst res = Val tt
  /\ errors (log (snd res))
     = ["Error analyzing text with Gemini API: 429 quota exceeded"]
  /\ removed (log (snd res)) = [temp; wav].
Proof.
  intros t env temp wav w res. subst res.
  rewrite (classifier_failure_run env record_too_short_msg temp wav EmptyString
             t "429 quota exceeded" (repeat Byte.x01 2048)
             (repeat Byte.x00 4096) w
             eq_refl ltac:(discriminate) ltac:(discriminate) eq_refl eq_refl
             ltac:(simpl; lia) ltac:(now exists tt) eq_refl eq_refl
             ltac:(vm_compute; lia) eq_refl).
  repeat split.
Defined.

(** ** The API key *)

(** X15: when the secrets can be read but hold no usable key, and the
    environment variable gives none, the script shows the key message and
    stops before anything else: no title, no file, no call of the
    decoder or of a model.  A secret that is set but empty counts as no
    key, even when the environment variable holds one.  When the secrets
    cannot be read at all (there is no secrets file), [st.secrets] raises
    an exception that is no [KeyError]: the environment variable is not
    looked at and the script ends by that exception, with nothing shown. *)
Theorem missing_key_stops
    (env : Env) (choice : string) (input : option (list Byte.byte))
    (files : gmap string (list Byte.byte)) :
  (secrets_error env = None ->
   secret_key env = Some EmptyString
   \/ (secret_key env = None
       /\ (getenv_key env = None \/ getenv_key env = Some EmptyString)) ->
   request env choice input files
   = (Stopped, mkWorld files [StError missing_key_msg]))
  /\ (forall msg,
         secrets_error env = Some msg ->
         request env choice input files
         = (Raised (OtherException msg), mkWorld files [])).
Proof.
  unfold request, main. split.
  - intros -> Hkey. rewrite bind_run. simpl.
    destruct Hkey as [-> | [-> [-> | ->]]]; reflexivity.
  - intros msg ->. reflexivity.
Qed.

Lemma missing_key_stops_witness :
  let env := mkEnv "/tmp/tmpab12cd34"
               (fun _ => Ran 0 EmptyString (Some (repeat Byte.x00 4096)))
               (fun _ => Returns tt) (fun _ _ => Returns "hello")
               (fun _ _ => Returns "no") (fun _ => true)
               (Some EmptyString) (Some "a-real-key") None errno2_text in
  let no_file := mkEnv "/tmp/tmpab12cd34"
               (fun _ => Ran 0 EmptyString (Some (repeat Byte.x00 4096)))
               (fun _ => Returns tt) (fun _ _ => Returns "hello")
               (fun _ _ => Returns "no") (fun _ => true)
               None (Some "a-real-key")
               (Some "No secrets files found.") errno2_text in
  request env "Upload Audio" (Some (repeat Byte.x01 2048)) ∅
  = (Stopped, mkWorld ∅ [StError missing_key_msg])
  /\ request no_file "Upload Audio" (Some (repeat Byte.x01 2048)) ∅
     = (Raised (OtherException "No secrets files found."), mkWorld ∅ []).
Proof.
  intros env no_file. split.
  - apply (proj1 (missing_key_stops env "Upload Audio"
                    (Some (repeat Byte.x01 2048)) ∅)).
    + reflexivity.
    + left. reflexivity.
  - apply (proj2 (missing_key_stops no_file "Upload Audio"
                    (Some (repeat Byte.x01 2048)) ∅)).
    reflexivity.
Defined.

(** ** What a request can do at all *)

Section Within.

Variable env : Env.
Variable ok : Event -> Prop.
Variable own : string -> Prop.

Lemma extends_refl (w : World) : extends ok own w w.
Proof.
  split; [| reflexivity]. exists []. split; [now rewrite app_nil_r | constructor].
Qed.

Lemma extends_trans (w1 w2 w3 : World) :
  extends ok own w1 w2 -> extends ok own w2 w3 -> extends ok own w1 w3.
Proof.
  intros [(l1 & Hl1 & Hok1) Hfs1] [(l2 & Hl2 & Hok2) Hfs2]. split.
  - exists (l1 ++ l2). split.
    + now rewrite Hl2, Hl1, <- app_assoc.
    + now apply Forall_app.
  - intros p Hp. now rewrite Hfs2, Hfs1.
Qed.

Lemma within_ret {A} (a : A) : within ok own (mret a : M A).
Proof. intros w. apply extends_refl. Qed.

Lemma within_stop {A} : within ok own (@st_stop A).
Proof. intros w. apply extends_refl. Qed.

Lemma within_raise {A} (e : Exn) : within ok own (@raise A e).
Proof. intros w. apply extends_refl. Qed.

Lemma within_emit (e : Event) : ok e -> within ok own (emit e).
Proof.
  intros He w. split; [| reflexivity].
  exists [e]. split; [reflexivity | now repeat constructor].
Qed.

(** The continuation has to keep within bounds only for the values
    that the first part can return. *)
Lemma within_bind {A B} (m : M A) (k : A -> M B) (P : A -> Prop) :
  within ok own m ->
  (forall w a, fst (m w) = Val a -> P a) ->
  (forall a, P a -> within ok own (k a)) ->
  within ok own (m ≫= k).
Proof.
  intros Hm HP Hk w. rewrite bind_run.
  pose proof (Hm w) as Hw. pose proof (HP w) as HPw.
  destruct (m w) as [[a| |e] w1]; simpl in *; [| exact Hw | exact Hw].
  apply (extends_trans _ w1); [exact Hw |]. now apply Hk, HPw.
Qed.

Lemma within_seq {A B} (m : M A) (k : A -> M B) :
  within ok own m -> (forall a, within ok own (k a)) -> within ok own (m ≫= k).
Proof. intros Hm Hk. apply (within_bind m k (fun _ => True)); auto. Qed.

Lemma within_try {A} (body : M A) (handler : Exn -> option (M A)) :
  within ok own body ->
  (forall e h, handler e = Some h -> within ok own h) ->
  within ok own (try_except body handler).
Proof.
  intros Hbody Hh w. unfold try_except.
  pose proof (Hbody w) as Hw.
  destruct (body w) as [[a| |e] w1]; simpl in *; try exact Hw.
  destruct (handler e) as [h|] eqn:He; [| exact Hw].
  apply (extends_trans _ w1); [exact Hw |]. now apply (Hh e h).
Qed.

Lemma within_os_remove (path : string) :
  ok (Removed path) -> own path -> within ok own (os_remove path).
Proof.
  intros Hok Hown w. unfold os_remove.
  destruct (fs w !! path); simpl; [| apply extends_refl].
  split.
  - exists [Removed path]. split; [reflexivity | now repeat constructor].
  - intros p Hp. simpl. apply lookup_delete_ne. intros ->. contradiction.
Qed.

Lemma within_write_file (path : string) (data : list Byte.byte) :
  ok (Created path) -> own path -> within ok own (write_file path data).
Proof.
  intros Hok Hown w. split.
  - exists [Created path]. split; [reflexivity | now repeat constructor].
  - intros p Hp. simpl. apply lookup_insert_ne. intros ->. contradiction.
Qed.

Lemma within_getsize (path : string) : within ok own (os_path_getsize path).
Proof.
  intros w. unfold os_path_getsize. destruct (fs w !! path); apply extends_refl.
Qed.

Lemma within_read_file (path : string) : within ok own (read_file path).
Proof.
  intros w. unfold read_file. destruct (fs w !! path); apply extends_refl.
Qed.

(** The failure exit never returns a value. *)
Lemma fail_and_clean_never_returns {A} (msg a b : string) (w : World) (x : A) :
  fst ((st_error msg;; os_remove a;; os_remove b;; st_stop) w) <> Val x.
Proof.
  rewrite bind_run. simpl. rewrite bind_run. unfold os_remove at 1. simpl.
  destruct (fs w !! a); simpl; [| discriminate].
  rewrite bind_run. unfold os_remove. simpl.
  destruct (delete a (fs w) !! b); simpl; discriminate.
Qed.

Hypothesis shown_ok : forall e, is_shown e = true -> ok e.

Lemma within_shown (e : Event) : is_shown e = true -> within ok own (emit e).
Proof. intros He. apply within_emit. now apply shown_ok. Qed.

Lemma within_st_audio (path format : string) : within ok own (st_audio path format).
Proof.
  intros w. unfold st_audio.
  destruct (fs w !! path); [now apply within_shown | apply extends_refl].
Qed.

Lemma within_transcribe_audio (audio_path : string) :
  (ok (LoadModel "medium") /\ ok (Inference audio_path "en")) ->
  within ok own (transcribe_audio env audio_path).
Proof.
  intros [Hload Hinf]. unfold transcribe_audio.
  apply within_try; [| intros e h [= <-]; apply within_ret].
  apply within_seq; [apply within_getsize | intros size].
  destruct (size <? 100)%nat; [apply within_ret |].
  apply within_seq.
  { unfold whisper_load_model. apply within_seq; [now apply within_emit |].
    intros _. destruct (whisper_load env "medium");
      [apply within_ret | apply within_raise]. }
  intros _. apply within_seq.
  { unfold model_transcribe. apply within_seq; [now apply within_emit |].
    intros _. apply within_seq; [apply within_read_file |].
    intros data. destruct (whisper_transcribe env data "en");
      [apply within_ret | apply within_raise]. }
  intros text. destruct (negb _); apply within_ret.
Qed.

Lemma within_analyze_text (text : string) :
  ok (GenerateContent "gemini-1.5-flash" (prompt_for text)) ->
  within ok own (analyze_text env text).
Proof.
  intros Hprompt. unfold analyze_text.
  apply within_try.
  - apply within_seq.
    + unfold generate_content. apply within_seq; [now apply within_emit |].
      intros _. destruct (gemini env _ _); [apply within_ret | apply within_raise].
    + intros response. destruct (verdict_of response) as [[? ?] ?].
      apply within_ret.
  - intros e h [= <-]. apply within_seq; [now apply within_shown |].
    intros _. apply within_ret.
Qed.

Lemma within_subprocess_run (argv : list string) :
  ok (Spawned argv) -> ok (Created (List.last argv EmptyString)) ->
  own (List.last argv EmptyString) ->
  within ok own (subprocess_run env argv).
Proof.
  intros Hsp Hcr Hown. unfold subprocess_run.
  apply within_seq; [now apply within_emit |]. intros _.
  destruct (run env argv) as [|rc err out|rc msg out|msg];
    [apply within_raise | | | apply within_raise].
  - apply within_seq.
    + destruct out; [now apply within_write_file | apply within_ret].
    + intros _. destruct (rc =? 0)%Z; [apply within_ret | apply within_raise].
  - apply within_seq.
    + destruct out; [now apply within_write_file | apply within_ret].
    + intros _. apply within_raise.
Qed.

Lemma within_convert_to_wav (audio_path output_path : string) :
  ok (Spawned (ffmpeg_argv audio_path output_path)) ->
  ok (Created output_path) -> own output_path ->
  within ok own (convert_to_wav env audio_path output_path).
Proof.
  intros Hsp Hcr Hown. unfold convert_to_wav.
  apply within_try.
  - apply within_seq; [now apply within_subprocess_run |].
    intros _. apply within_ret.
  - intros e h He. destruct e; inversion He; subst;
      (apply within_seq; [now apply within_shown | intros _; apply within_ret]).
Qed.

Variables temp wav : string.

Hypothesis own_temp : own temp.
Hypothesis own_wav : own wav.
Hypothesis removed_temp_ok : ok (Removed temp).
Hypothesis removed_wav_ok : ok (Removed wav).

Lemma within_fail_and_clean {A} (msg : string) :
  within ok own (st_error msg;; os_remove temp;; os_remove wav;; @st_stop A).
Proof.
  apply within_seq; [now apply within_shown |]. intros _.
  apply within_seq; [now apply within_os_remove |]. intros _.
  apply within_seq; [now apply within_os_remove |]. intros _.
  apply within_stop.
Qed.

Lemma within_analyze_clicked (too_short : string) :
  (ok (LoadModel "medium") /\ ok (Inference wav "en")) ->
  (forall t, PyStr.all_space t = false -> 5 <= length (PyStr.split t) ->
             ok (GenerateContent "gemini-1.5-flash" (prompt_for t))) ->
  within ok own (analyze_clicked env too_short temp wav).
Proof.
  intros Hmodel Hprompt. unfold analyze_clicked.
  apply (within_bind _ _
           (fun r => forall t, fst r = Some t -> PyStr.all_space t = false)).
  { now apply within_transcribe_audio. }
  { intros w [text error] Hrun t Ht. simpl in Ht. subst text.
    rewrite transcribe_audio_run in Hrun.
    destruct (fs w !! wav) as [data|]; [| discriminate].
    destruct (length data <? 100)%nat; [discriminate |].
    cbv zeta in Hrun.
    destruct (whisper_load env "medium"); [| discriminate].
    destruct (whisper_transcribe env data "en") as [heard|]; [| discriminate].
    destruct (PyStr.all_space heard) eqn:Hb; [discriminate |].
    simpl in Hrun. now inversion Hrun; subst. }
  intros [text error] Htext. simpl in Htext.
  apply within_seq.
  { destruct (opt_truthy error); [apply within_fail_and_clean | apply within_ret]. }
  intros _. apply within_seq; [now apply within_shown |]. intros _.
  destruct text as [t|]; [| apply within_raise].
  apply (within_bind _ _ (fun _ => 5 <= length (PyStr.split t))).
  { destruct (length (PyStr.split t) <? 5)%nat;
      [apply within_fail_and_clean | apply within_ret]. }
  { intros w a. destruct (Nat.ltb_spec (length (PyStr.split t)) 5) as [Hlt|Hge].
    - intros H. exfalso. revert H. apply fail_and_clean_never_returns.
    - intros _. exact Hge. }
  intros _ Hlong. apply within_seq.
  { apply within_analyze_text. apply Hprompt; [now apply Htext | exact Hlong]. }
  intros [[result explanation] color].
  destruct (opt_truthy result); [| apply within_ret].
  apply within_seq; [now apply within_shown |]. intros _.
  now apply within_shown.
Qed.

End Within.

Section Requests.

Variable env : Env.
Variable ok : Event -> Prop.
Variable own : string -> Prop.

Lemma within_path_match {A} (c : string) (X Y : M A) :
  within ok own X -> within ok own Y ->
  within ok own
    match c with
    | EmptyString => X
    | String _ _ => Y
    end.
Proof. destruct c; auto. Qed.

Lemma convert_to_wav_returns (audio_path output_path : string) (w : World)
    (r : option string) :
  fst (convert_to_wav env audio_path output_path w) = Val r ->
  r = None \/ r = Some output_path.
Proof.
  rewrite convert_to_wav_run. cbv zeta.
  destruct (run env _) as [|rc err out|rc msg out|msg]; simpl;
    [intros [= <-]; auto | | discriminate | discriminate].
  destruct (rc =? 0)%Z; simpl; intros [= <-]; auto.
Qed.

(** What follows the conversion: lines 99-131 and 154-186. *)
Lemma within_after_convert (too_short temp wav : string)
    (converted : option string) :
  allows_analysis env ok own temp wav ->
  converted = None \/ converted = Some wav ->
  within ok own
    match converted with
    | None | Some EmptyString => os_remove temp;; st_stop
    | Some converted_path =>
        st_audio converted_path "audio/wav";;
        clicked ← st_button env "Analyze";
        (if (clicked : bool) then
           analyze_clicked env too_short temp converted_path
         else mret tt);;
        os_remove temp;;
        os_remove converted_path
    end.
Proof.
  intros (Hshown & Hot & How & Hrt & Hrw & Hmodel & Hprompt) Hconv.
  assert (Hfail : within ok own (os_remove temp;; @st_stop unit)).
  { apply within_seq; [now apply within_os_remove | intros _; apply within_stop]. }
  destruct Hconv as [-> | ->]; [exact Hfail |].
  apply within_path_match; [exact Hfail |].
  apply within_seq; [now apply within_st_audio |]. intros _.
  apply (within_bind _ _ _ _ (fun clicked => clicked = button env "Analyze")).
  { apply within_ret. }
  { intros w a [= <-]. reflexivity. }
  intros clicked ->.
  apply within_seq.
  { destruct (button env "Analyze") eqn:Hbutton; [| apply within_ret].
    apply (within_analyze_clicked env ok own Hshown temp wav Hot How Hrt Hrw
             too_short); [now apply Hmodel | intros t; now apply Hprompt]. }
  intros _. apply within_seq; [now apply within_os_remove |]. intros _.
  now apply within_os_remove.
Qed.

Lemma within_convert_and_analyze (too_short temp wav : string) :
  allows_request env ok own temp wav ->
  within ok own (convert_and_analyze env too_short temp wav).
Proof.
  intros (Hanalysis & Hct & Hcw & Hsp). unfold convert_and_analyze.
  pose proof Hanalysis as (Hshown & Hot & How & _).
  apply (within_bind _ _ _ _ (fun c => c = None \/ c = Some wav)).
  - now apply within_convert_to_wav.
  - intros w r. apply convert_to_wav_returns.
  - intros converted Hconv.
    exact (within_after_convert too_short temp wav converted Hanalysis Hconv).
Qed.

Lemma within_upload_audio (audio_file : option (list Byte.byte)) :
  allows_request env ok own (tmp_stem env +:+ ".tmp")
    ((tmp_stem env +:+ ".tmp") +:+ ".wav") ->
  within ok own (upload_audio env audio_file).
Proof.
  intros Hall. pose proof Hall as ((_ & Hot & _) & Hct & _).
  unfold upload_audio. destruct audio_file as [buffer|]; [| apply within_ret].
  apply (within_bind _ _ _ _ (fun path => path = tmp_stem env +:+ ".tmp")).
  - unfold named_temporary_file. apply within_seq.
    + now apply within_write_file.
    + intros _. apply within_ret.
  - intros w a. rewrite created_temp_file. now intros [= <-].
  - intros path ->. now apply within_convert_and_analyze.
Qed.

Lemma within_record_audio (audio : option (list Byte.byte)) :
  allows_request env ok own (tmp_stem env +:+ ".wav")
    ((tmp_stem env +:+ ".wav") +:+ "_converted.wav") ->
  within ok own (record_audio env audio).
Proof.
  intros Hall. pose proof Hall as ((Hshown & Hot & _ & Hrt & _) & Hct & _).
  unfold record_audio.
  apply within_seq; [now apply within_shown |]. intros _.
  destruct audio as [bytes|]; [| apply within_ret].
  apply (within_bind _ _ _ _ (fun path => path = tmp_stem env +:+ ".wav")).
  - unfold named_temporary_file. apply within_seq.
    + now apply within_write_file.
    + intros _. apply within_ret.
  - intros w a. rewrite created_temp_file. now intros [= <-].
  - intros path ->.
    apply within_seq; [apply within_getsize |]. intros file_size.
    apply within_seq; [now apply within_shown |]. intros _.
    apply within_seq.
    + destruct (file_size <? 100)%nat; [| apply within_ret].
      apply within_seq; [now apply within_shown |]. intros _.
      apply within_seq; [now apply within_os_remove |]. intros _.
      apply within_stop.
    + intros _. now apply within_convert_and_analyze.
Qed.

Lemma temp_path_upload (choice : string) :
  String.eqb choice "Upload Audio" = true ->
  temp_path env choice = tmp_stem env +:+ ".tmp"
  /\ wav_path env choice = (tmp_stem env +:+ ".tmp") +:+ ".wav".
Proof.
  intros H. unfold wav_path, temp_path, temp_suffix, wav_suffix.
  now rewrite H.
Qed.

Lemma temp_path_record (choice : string) :
  String.eqb choice "Upload Audio" = false ->
  temp_path env choice = tmp_stem env +:+ ".wav"
  /\ wav_path env choice = (tmp_stem env +:+ ".wav") +:+ "_converted.wav".
Proof.
  intros H. unfold wav_path, temp_path, temp_suffix, wav_suffix.
  now rewrite H.
Qed.

Lemma within_main (choice : string) (input : option (list Byte.byte)) :
  allows_request env ok own (temp_path env choice) (wav_path env choice) ->
  within ok own (main env choice input).
Proof.
  intros Hall. pose proof Hall as ((Hshown & _) & _).
  unfold main.
  apply within_seq.
  { destruct (secrets_error env); [apply within_raise | apply within_ret]. }
  intros key. apply within_seq.
  { destruct (negb _); [| apply within_ret].
    apply within_seq; [now apply within_shown | intros _; apply within_stop]. }
  intros _. apply within_seq; [now apply within_shown |]. intros _.
  apply within_seq; [now apply within_shown |]. intros _.
  apply within_seq; [| intros _; now apply within_shown].
  destruct (String.eqb choice "Upload Audio") eqn:Hup.
  - destruct (temp_path_upload choice Hup) as [Ht Hw].
    rewrite Ht, Hw in Hall. now apply within_upload_audio.
  - destruct (temp_path_record choice Hup) as [Ht Hw].
    rewrite Ht, Hw in Hall.
    destruct (String.eqb choice "Record Audio"); [| apply within_ret].
    now apply within_record_audio.
Qed.

(** A request starts from an empty log: all its events are allowed. *)
Lemma request_within (choice : string) (input : option (list Byte.byte))
    (files : gmap string (list Byte.byte)) :
  allows_request env ok own (temp_path env choice) (wav_path env choice) ->
  Forall ok (log (snd (request env choice input files)))
  /\ forall p, ~ own p ->
               fs (snd (request env choice input files)) !! p = files !! p.
Proof.
  intros Hall. unfold request.
  destruct (within_main choice input Hall (mkWorld files []))
    as [(l & Hl & Hok) Hfs].
  simpl in Hl. rewrite Hl. auto.
Qed.

End Requests.

Section Counting.

Variable env : Env.
Context {B : Type}.
Variable f : Event -> option B.
Variable P : B -> Prop.

Lemma omap_silent (l : list Event) : Forall (silent_for f) l -> omap f l = [].
Proof.
  induction 1 as [|e l He _ IH]; [reflexivity |].
  simpl. unfold silent_for in He. now rewrite He.
Qed.

Lemma extends_silent (w w' : World) :
  extends (silent_for f) anywhere w w' -> omap f (log w') = omap f (log w).
Proof.
  intros [(l & -> & Hl) _]. rewrite omap_app, (omap_silent l Hl).
  apply app_nil_r.
Qed.

Lemma adds_of_silent {A} (m : M A) : within (silent_for f) anywhere m -> adds f P m.
Proof. intros Hm w. left. apply extends_silent, Hm. Qed.

Lemma adds_bind_val {A C} (m : M A) (k : A -> M C) (Q : A -> Prop) :
  within (silent_for f) anywhere m ->
  (forall w a, fst (m w) = Val a -> Q a) ->
  (forall a, Q a -> adds f P (k a)) ->
  adds f P (m ≫= k).
Proof.
  intros Hm HQ Hk w. rewrite bind_run.
  pose proof (extends_silent _ _ (Hm w)) as Hw. pose proof (HQ w) as HQw.
  destruct (m w) as [[a| |e] w1]; simpl in *; [| now left | now left].
  unfold adds_at_most. rewrite <- Hw. now apply Hk, HQw.
Qed.

Lemma adds_bind_l {A C} (m : M A) (k : A -> M C) :
  within (silent_for f) anywhere m -> (forall a, adds f P (k a)) ->
  adds f P (m ≫= k).
Proof. intros Hm Hk. apply (adds_bind_val m k (fun _ => True)); auto. Qed.

Lemma adds_bind_r {A C} (m : M A) (k : A -> M C) (Q : A -> Prop) :
  adds f P m ->
  (forall w a, fst (m w) = Val a -> Q a) ->
  (forall a, Q a -> within (silent_for f) anywhere (k a)) ->
  adds f P (m ≫= k).
Proof.
  intros Hm HQ Hk w. rewrite bind_run.
  pose proof (Hm w) as Hw. pose proof (HQ w) as HQw.
  destruct (m w) as [[a| |e] w1]; simpl in *; [| exact Hw | exact Hw].
  unfold adds_at_most.
  rewrite (extends_silent _ _ (Hk a (HQw a eq_refl) w1)). exact Hw.
Qed.

End Counting.

Section Counts.

Variable env : Env.

Lemma shown_silent {B} (f : Event -> option B) :
  (forall e, is_shown e = true -> f e = None) ->
  forall e, is_shown e = true -> silent_for f e.
Proof. intros H e He. now apply H. Qed.

Lemma spawned_of_shown (e : Event) : is_shown e = true -> spawned_of e = None.
Proof. destruct e; try discriminate; reflexivity. Qed.

Lemma prompt_of_shown (e : Event) : is_shown e = true -> prompt_of e = None.
Proof. destruct e; try discriminate; reflexivity. Qed.

Lemma silent_named_temporary_file {B} (f : Event -> option B)
    (suffix : string) (data : list Byte.byte) :
  (forall p, f (Created p) = None) ->
  within (silent_for f) anywhere (named_temporary_file env suffix data).
Proof.
  intros Hc. unfold named_temporary_file. apply within_seq.
  - apply within_write_file; [apply Hc | exact I].
  - intros _. apply within_ret.
Qed.

Lemma silent_remove_and_stop {B} (f : Event -> option B) (temp : string) :
  (forall p, f (Removed p) = None) ->
  within (silent_for f) anywhere (os_remove temp;; @st_stop unit).
Proof.
  intros Hr. apply within_seq.
  - apply within_os_remove; [apply Hr | exact I].
  - intros _. apply within_stop.
Qed.

(** The steps of a request around [convert_and_analyze] add nothing
    that [f] reads, when [f] reads neither the page nor the two kinds of
    file events. *)
Lemma adds_request {B} (f : Event -> option B) (P : string -> string -> B -> Prop)
    (choice : string) (input : option (list Byte.byte)) :
  (forall e, is_shown e = true -> f e = None) ->
  (forall p, f (Created p) = None) ->
  (forall p, f (Removed p) = None) ->
  (forall too_short temp wav,
      adds f (P temp wav) (convert_and_analyze env too_short temp wav)) ->
  adds f (P (temp_path env choice) (wav_path env choice)) (main env choice input).
Proof.
  intros Hshown Hcreated Hremoved Hcore.
  pose proof (shown_silent f Hshown) as Hs.
  assert (Hshow : forall e, is_shown e = true ->
                            within (silent_for f) anywhere (emit e)).
  { intros e He. now apply within_shown. }
  unfold main.
  apply adds_bind_l.
  { destruct (secrets_error env); [apply within_raise | apply within_ret]. }
  intros key. apply adds_bind_l.
  { destruct (negb _); [| apply within_ret].
    apply within_seq; [now apply Hshow | intros _; apply within_stop]. }
  intros _. apply adds_bind_l; [now apply Hshow |]. intros _.
  apply adds_bind_l; [now apply Hshow |]. intros _.
  apply (adds_bind_r f _ _ _ (fun _ => True)); [| auto | intros _ _; now apply Hshow].
  destruct (String.eqb choice "Upload Audio") eqn:Hup.
  - destruct (temp_path_upload env choice Hup) as [-> ->].
    unfold upload_audio. destruct input as [buffer|];
      [| apply adds_of_silent, within_ret].
    apply (adds_bind_val f _ _ _ (fun path => path = tmp_stem env +:+ ".tmp")).
    + now apply silent_named_temporary_file.
    + intros w a. rewrite created_temp_file. now intros [= <-].
    + intros path ->. apply Hcore.
  - destruct (temp_path_record env choice Hup) as [-> ->].
    destruct (String.eqb choice "Record Audio");
      [| apply adds_of_silent, within_ret].
    unfold record_audio.
    apply adds_bind_l; [now apply Hshow |]. intros _.
    destruct input as [bytes|]; [| apply adds_of_silent, within_ret].
    apply (adds_bind_val f _ _ _ (fun path => path = tmp_stem env +:+ ".wav")).
    + now apply silent_named_temporary_file.
    + intros w a. rewrite created_temp_file. now intros [= <-].
    + intros path ->.
      apply adds_bind_l; [apply within_getsize |]. intros file_size.
      apply adds_bind_l; [now apply Hshow |]. intros _.
      apply adds_bind_l; [| intros _; apply Hcore].
      destruct (file_size <? 100)%nat; [| apply within_ret].
      apply within_seq; [now apply Hshow |]. intros _.
      now apply silent_remove_and_stop.
Qed.

(** A request starts from an empty log. *)
Lemma request_adds {B} (f : Event -> option B) (P : B -> Prop)
    (choice : string) (input : option (list Byte.byte))
    (files : gmap string (list Byte.byte)) :
  adds f P (main env choice input) ->
  omap f (log (snd (request env choice input files))) = []
  \/ exists x, P x /\ omap f (log (snd (request env choice input files))) = [x].
Proof. intros H. exact (H (mkWorld files [])). Qed.

Lemma convert_to_wav_spawns_once (audio_path output_path : string) (w : World) :
  spawned (log (snd (convert_to_wav env audio_path output_path w)))
  = spawned (log w) ++ [ffmpeg_argv audio_path output_path].
Proof.
  rewrite convert_to_wav_run. cbv zeta. unfold spawned.
  destruct (run env _) as [|rc err [data|]|rc msg [data|]|msg]; simpl;
    try (destruct (rc =? 0)%Z; simpl);
    rewrite ?omap_snoc; simpl; rewrite ?app_nil_r; reflexivity.
Qed.

Lemma spawn_silent_analysis (temp wav : string) :
  allows_analysis env (silent_for spawned_of) anywhere temp wav.
Proof.
  unfold allows_analysis, silent_for, anywhere.
  repeat split; auto using spawned_of_shown.
Qed.

Lemma adds_spawn_convert_and_analyze (too_short temp wav : string) :
  adds spawned_of (fun argv => argv = ffmpeg_argv temp wav)
    (convert_and_analyze env too_short temp wav).
Proof.
  unfold convert_and_analyze.
  apply (adds_bind_r spawned_of _ _ _ (fun c => c = None \/ c = Some wav)).
  - intros w. right. exists (ffmpeg_argv temp wav).
    split; [reflexivity | apply convert_to_wav_spawns_once].
  - intros w r. apply convert_to_wav_returns.
  - intros converted Hconv.
    exact (within_after_convert env _ _ too_short temp wav converted
             (spawn_silent_analysis temp wav) Hconv).
Qed.

Lemma analyze_text_prompts_once (text : string) (w : World) :
  prompts (log (snd (analyze_text env text w)))
  = prompts (log w) ++ [prompt_for text].
Proof.
  rewrite analyze_text_run. cbv zeta. unfold prompts.
  destruct (gemini env _ _) as [response|msg].
  - destruct (verdict_of response) as [[? ?] ?]. simpl. now rewrite omap_snoc.
  - simpl. rewrite !omap_snoc. simpl. now rewrite app_nil_r.
Qed.

Lemma adds_prompt_analyze_clicked (too_short temp wav : string) :
  adds prompt_of (fun p => exists t, p = prompt_for t)
    (analyze_clicked env too_short temp wav).
Proof.
  pose proof (shown_silent prompt_of prompt_of_shown) as Hs.
  assert (Hshow : forall e, is_shown e = true ->
                            within (silent_for prompt_of) anywhere (emit e)).
  { intros e He. now apply within_shown. }
  assert (Hfail : forall msg,
             within (silent_for prompt_of) anywhere
               (st_error msg;; os_remove temp;; os_remove wav;; @st_stop unit)).
  { intros msg. now apply (within_fail_and_clean _ _ Hs temp wav). }
  unfold analyze_clicked.
  apply adds_bind_l.
  { apply within_transcribe_audio. now split. }
  intros [text error]. apply adds_bind_l.
  { destruct (opt_truthy error); [apply Hfail | apply within_ret]. }
  intros _. apply adds_bind_l; [now apply Hshow |]. intros _.
  destruct text as [t|]; [| apply adds_of_silent, within_raise].
  apply adds_bind_l.
  { destruct (_ <? 5)%nat; [apply Hfail | apply within_ret]. }
  intros _.
  apply (adds_bind_r prompt_of _ _ _ (fun _ => True)); [| auto |].
  - intros w. right. exists (prompt_for t).
    split; [now exists t | apply analyze_text_prompts_once].
  - intros [[result explanation] color] _.
    destruct (opt_truthy result); [| apply within_ret].
    apply within_seq; [now apply Hshow | intros _; now apply Hshow].
Qed.

Lemma adds_prompt_convert_and_analyze (too_short temp wav : string) :
  adds prompt_of (fun p => exists t, p = prompt_for t)
    (convert_and_analyze env too_short temp wav).
Proof.
  pose proof (shown_silent prompt_of prompt_of_shown) as Hs.
  assert (Hshow : forall e, is_shown e = true ->
                            within (silent_for prompt_of) anywhere (emit e)).
  { intros e He. now apply within_shown. }
  assert (Hrm : forall p, within (silent_for prompt_of) anywhere (os_remove p)).
  { intros p. now apply within_os_remove. }
  unfold convert_and_analyze. apply adds_bind_l.
  { now apply within_convert_to_wav. }
  intros converted.
  assert (Hstop : adds prompt_of (fun p => exists t, p = prompt_for t)
                    (os_remove temp;; @st_stop unit)).
  { apply adds_of_silent. now apply silent_remove_and_stop. }
  destruct converted as [[|c s]|]; [exact Hstop | | exact Hstop].
  apply adds_bind_l; [now apply within_st_audio |]. intros _.
  apply adds_bind_l; [apply within_ret |]. intros clicked.
  apply (adds_bind_r prompt_of _ _ _ (fun _ => True)); [| auto |].
  - destruct clicked; [apply adds_prompt_analyze_clicked |].
    apply adds_of_silent, within_ret.
  - intros _ _. apply within_seq; [apply Hrm | intros _; apply Hrm].
Qed.

End Counts.

Lemma Forall_omap {A B} (f : A -> option B) (P : A -> Prop) (Q : B -> Prop)
    (l : list A) :
  (forall a b, P a -> f a = Some b -> Q b) ->
  Forall P l -> Forall Q (omap f l).
Proof.
  intros H. induction 1 as [|a l Ha _ IH]; simpl; [constructor |].
  destruct (f a) as [b|] eqn:E; [constructor; eauto | exact IH].
Qed.

(** X16: the script removes no file but its own two temporary ones:
    every call of [os.remove] in a request is on the temporary copy of the
    input or on the path of the converted file. *)
Theorem request_removes_only_its_files
    (env : Env) (choice : string) (input : option (list Byte.byte))
    (files : gmap string (list Byte.byte)) :
  let res := request env choice input files in
  let temp := temp_path env choice in
  let wav := wav_path env choice in
  Forall (fun p => p = temp \/ p = wav) (removed (log (snd res))).
Proof.
  intros res temp wav. subst res.
  destruct (request_within env (file_event_within temp wav)
              (fun p => p = temp \/ p = wav) choice input files)
    as [Hlog _].
  { unfold allows_request, allows_analysis. simpl.
    repeat split; auto. intros e He. destruct e; try discriminate He; exact I. }
  apply (Forall_omap removed_of (file_event_within temp wav)); [| exact Hlog].
  intros e p He Hp. destruct e; try discriminate Hp.
  inversion Hp; subst. exact He.
Qed.

(** X17: the script itself calls [subprocess.run] at most once in a
    request, and then with the decoder's command line, from the first
    temporary file to the second.  (What a library starts on its own
    inside a call is no call of the script.) *)
Theorem request_runs_the_decoder_at_most_once
    (env : Env) (choice : string) (input : option (list Byte.byte))
    (files : gmap string (list Byte.byte)) :
  let res := request env choice input files in
  spawned (log (snd res)) = []
  \/ spawned (log (snd res))
     = [ffmpeg_argv (temp_path env choice) (wav_path env choice)].
Proof.
  intros res. subst res.
  destruct (request_adds env spawned_of
              (fun argv => argv = ffmpeg_argv (temp_path env choice)
                                     (wav_path env choice))
              choice input files) as [H | (argv & -> & H)]; auto.
  apply (adds_request env spawned_of
           (fun temp wav argv => argv = ffmpeg_argv temp wav));
    auto using spawned_of_shown, adds_spawn_convert_and_analyze.
Qed.

(** X18: the speech model is called only after the Analyze button was
    pressed, and only as [medium], on the converted file, in English. *)
Theorem model_called_only_after_button
    (env : Env) (choice : string) (input : option (list Byte.byte))
    (files : gmap string (list Byte.byte)) :
  let res := request env choice input files in
  Forall (model_call_allowed env (wav_path env choice)) (log (snd res))
  /\ (button env "Analyze" = false -> model_calls (log (snd res)) = []).
Proof.
  intros res. subst res.
  destruct (request_within env (model_call_allowed env (wav_path env choice))
              anywhere choice input files) as [Hlog _].
  { unfold allows_request, allows_analysis, anywhere. simpl.
    repeat split; auto. intros e He. destruct e; try discriminate He; exact I. }
  split; [exact Hlog |].
  intros Hbutton. unfold model_calls.
  induction Hlog as [|e l He _ IH]; [reflexivity |].
  destruct e; simpl in *; try exact IH; destruct He; congruence.
Qed.

Lemma no_prompt_no_call (l : list Event) :
  omap prompt_of l = [] -> omap classifier_call_of l = [].
Proof.
  induction l as [|e l IH]; [reflexivity |].
  destruct e; simpl; try exact IH. discriminate.
Qed.

(** X19: a request sends at most one prompt to the classifier, and
    only after the Analyze button was pressed, for a transcript that is
    not blank and has 5 words or more. *)
Theorem request_prompts_at_most_once
    (env : Env) (choice : string) (input : option (list Byte.byte))
    (files : gmap string (list Byte.byte)) :
  let res := request env choice input files in
  prompts (log (snd res)) = []
  \/ exists t,
       prompts (log (snd res)) = [prompt_for t]
       /\ classifier_calls (log (snd res)) = [("gemini-1.5-flash", prompt_for t)]
       /\ button env "Analyze" = true
       /\ PyStr.all_space t = false
       /\ 5 <= length (PyStr.split t).
Proof.
  intros res. subst res.
  destruct (request_within env (prompt_allowed env) anywhere choice input files)
    as [Hlog _].
  { unfold allows_request, allows_analysis, anywhere. simpl.
    repeat split; eauto. intros e He. destruct e; try discriminate He; exact I. }
  destruct (request_adds env prompt_of (fun p => exists t, p = prompt_for t)
              choice input files) as [H | (p & _ & H)]; [| now left |].
  { apply (adds_request env prompt_of
             (fun _ _ p => exists t, p = prompt_for t));
      auto using prompt_of_shown, adds_prompt_convert_and_analyze. }
  right. unfold prompts, classifier_calls in *.
  revert H.
  induction Hlog as [|e l He _ IH]; [discriminate |].
  destruct e; simpl in *; try exact IH.
  intros [= <- Hrest].
  destruct He as (Hbutton & -> & t & -> & Hblank & Hlong).
  exists t. split; [exact (f_equal (cons (prompt_for t)) Hrest) |].
  split; [| auto].
  exact (f_equal (cons ("gemini-1.5-flash", prompt_for t))
           (no_prompt_no_call l Hrest)).
Qed.

Lemma convert_and_analyze_spawns_once (env : Env) (too_short temp wav : string)
    (w : World) :
  spawned (log (snd (convert_and_analyze env too_short temp wav w)))
  = spawned (log w) ++ [ffmpeg_argv temp wav].
Proof.
  unfold convert_and_analyze. rewrite bind_run.
  pose proof (convert_to_wav_spawns_once env temp wav w) as Honce.
  pose proof (convert_to_wav_returns env temp wav w) as Hret.
  destruct (convert_to_wav env temp wav w) as [[r| |e] w1]; simpl in *;
    [| exact Honce | exact Honce].
  rewrite <- Honce.
  apply (extends_silent spawned_of).
  exact (within_after_convert env _ _ too_short temp wav r
           (spawn_silent_analysis env temp wav) (Hret r eq_refl) w1).
Qed.

(** X20: the upload branch has no size check of its own: every
    uploaded file, an empty one too, is handed to the decoder, once.  The
    record branch does the same with a recording of 100 bytes or more. *)
Theorem upload_always_converts
    (env : Env) (buffer : list Byte.byte) (w : World) :
  let temp_u := tmp_stem env +:+ ".tmp" in
  let temp_r := tmp_stem env +:+ ".wav" in
  spawned (log (snd (upload_audio env (Some buffer) w)))
  = spawned (log w) ++ [ffmpeg_argv temp_u (temp_u +:+ ".wav")]
  /\ (100 <= length buffer ->
      spawned (log (snd (record_audio env (Some buffer) w)))
      = spawned (log w) ++ [ffmpeg_argv temp_r (temp_r +:+ "_converted.wav")]).
Proof.
  intros temp_u temp_r. split.
  - unfold upload_audio. rewrite bind_run, created_temp_file. cbv zeta.
    rewrite convert_and_analyze_spawns_once. unfold spawned. simpl.
    now rewrite omap_snoc, app_nil_r.
  - intros Hsize. unfold record_audio. rewrite bind_run. simpl.
    rewrite bind_run, created_temp_file. cbv zeta. fold temp_r.
    rewrite bind_run. unfold os_path_getsize at 1. cbn [fs].
    rewrite lookup_insert_eq. rewrite bind_run. simpl.
    apply Nat.ltb_ge in Hsize. rewrite Hsize. rewrite bind_run. simpl.
    rewrite convert_and_analyze_spawns_once. unfold spawned. simpl.
    rewrite !omap_app. simpl. now rewrite !app_nil_r.
Qed.

Lemma upload_always_converts_witness :
  let env := sample_env "hello" "no" in
  let w := mkWorld ∅ [] in
  spawned (log (snd (upload_audio env (Some []) w)))
  = [ffmpeg_argv "/tmp/tmpab12cd34.tmp" "/tmp/tmpab12cd34.tmp.wav"]
  /\ spawned (log (snd (record_audio env (Some (repeat Byte.x01 100)) w)))
     = [ffmpeg_argv "/tmp/tmpab12cd34.wav" "/tmp/tmpab12cd34.wav_converted.wav"].
Proof.
  intros env w. split.
  - apply (proj1 (upload_always_converts env [] w)).
  - apply (proj2 (upload_always_converts env (repeat Byte.x01 100) w)).
    simpl. lia.
Defined.

(** X21: [transcribe_audio] does not try again: it loads the model at
    most once and runs it at most once, after the load, always as
    [medium] and in English, and logs nothing else. *)
Theorem transcribe_audio_calls_model_once
    (env : Env) (audio_path : string) (w : World) :
  exists l,
    log (snd (transcribe_audio env audio_path w)) = log w ++ l
    /\ (l = [] \/ l = [LoadModel "medium"]
        \/ l = [LoadModel "medium"; Inference audio_path "en"]).
Proof.
  rewrite transcribe_audio_run.
  destruct (fs w !! audio_path) as [data|];
    [| exists []; split; [simpl; now rewrite app_nil_r | auto]].
  destruct (length data <? 100)%nat;
    [exists []; split; [simpl; now rewrite app_nil_r | auto] |].
  cbv zeta. destruct (whisper_load env "medium");
    [| exists [LoadModel "medium"]; split; [reflexivity | auto]].
  exists [LoadModel "medium"; Inference audio_path "en"].
  split; [| auto].
  destruct (whisper_transcribe env data "en") as [heard|];
    [destruct (PyStr.all_space heard) |]; simpl; now rewrite <- app_assoc.
Qed.
